(** * faust/event.py: typed event records, schema derivation and validation

  A shallow embedding of [faust/event.py].  Python dictionaries are
  insertion-ordered association lists with unique keys, [frozenset]s of
  field names are [gset string], exceptions are the left summand of a sum
  type, and [print] appends a line to an explicit standard output. *)

From stdpp Require Import base option list strings gmap sorting pretty.

Set Warnings "-clear-no-such-hyp".

(** ** Python dictionaries keyed by [str] *)

Module PyDict.
Section dict.
Context {A : Type}.

(** [d[k]], as an option: [None] stands for [KeyError]. *)
Fixpoint get (k : string) (d : list (string * A)) : option A :=
  match d with
  | [] => None
  | (k', v) :: d' => if decide (k = k') then Some v else get k d'
  end.

(** [d[k] = v]: an existing key keeps its position, a new key goes last. *)
Fixpoint set (k : string) (v : A) (d : list (string * A)) : list (string * A) :=
  match d with
  | [] => [(k, v)]
  | (k', v') :: d' =>
      if decide (k = k') then (k', v) :: d' else (k', v') :: set k v d'
  end.

(** [d.update(other)]: the pairs of [other] are stored left to right. *)
Definition update (d other : list (string * A)) : list (string * A) :=
  foldl (fun acc kv => set kv.1 kv.2 acc) d other.

(** [d.keys()], in insertion order. *)
Definition keys (d : list (string * A)) : list string := d.*1.

(** [dict(pairs)]. *)
Definition of_items (items : list (string * A)) : list (string * A) :=
  update [] items.

(** [frozenset(d)]: the set of the keys. *)
Definition frozenset (d : list (string * A)) : gset string :=
  list_to_set (keys d).

(** Python's [d1 == d2] on dictionaries: same keys, same values, in any
    order. *)
Definition equal (d1 d2 : list (string * A)) : Prop :=
  forall k, get k d1 = get k d2.
End dict.
End PyDict.

Abbreviation dict A := (list (string * A)) (only parsing).

(** [sorted(s)] on a set of strings: ascending, by code point. *)
Definition sorted (s : gset string) : list string :=
  merge_sort String.le (elements s).

(** [sep.join(l)]. *)
Definition join (sep : string) (l : list string) : string :=
  String.concat sep l.

(** ** Exceptions *)

Inductive exn : Type :=
| TypeError (msg : string)
| DuplicateKeyword (k : string)  (* the TypeError of a call whose keyword arguments repeat [k] *)
| MultipleValues (arg : string)  (* the TypeError of a call that passes the parameter [arg] by position and by keyword *)
| AttributeError (attr : string)
| KeyError (k : string)
| SerializationError (msg : string).  (* whatever the codec raises *)

Abbreviation result A := (exn + A)%type (only parsing).

#[global] Instance result_ret : MRet (sum exn) := fun A x => inr x.
#[global] Instance result_bind : MBind (sum exn) := fun A B f m =>
  match m with
  | inl e => inl e
  | inr x => f x
  end.
#[global] Instance result_fmap : FMap (sum exn) := fun A B f m =>
  match m with
  | inl e => inl e
  | inr x => inr (f x)
  end.

Definition is_ok {A} (r : result A) : Prop :=
  match r with inr _ => True | inl _ => False end.

(** ** Classes as [__init_subclass__] sees them *)

(** The declared type of a field: the text of the annotation. *)
Definition pytype : Type := string.

(** A class of a method resolution order.  For a user class,
    [annotations] is what the interpreter returns for
    [cls.__annotations__] on that class, [None] when the attribute access
    raises [AttributeError].  [ClsUser] is a class that has an attribute
    [serializer] of its own, with that value; [ClsPlain] is a class that
    has none: a mixin, or a class on which the attribute has not been
    assigned yet. *)
Inductive pyclass : Type :=
| ClsObject
| ClsEvent
| ClsUser (name : string) (annotations : option (dict pytype))
    (serializer : option string)
| ClsPlain (name : string) (annotations : option (dict pytype)).

Definition __name__ (c : pyclass) : string :=
  match c with
  | ClsObject => "object"
  | ClsEvent => "Event"
  | ClsUser name _ _ => name
  | ClsPlain name _ => name
  end.

(** [Event] itself annotates [req] and [_fields]; [_fieldset] is assigned,
    not annotated. *)
Definition __annotations__ (c : pyclass) : option (dict pytype) :=
  match c with
  | ClsObject => None
  | ClsEvent => Some [("req", "Request"); ("_fields", "Mapping[str, type]")]
  | ClsUser _ annotations _ => annotations
  | ClsPlain _ annotations => annotations
  end.

(** [cls == Event]. *)
Definition is_Event (c : pyclass) : bool :=
  match c with ClsEvent => true | _ => false end.

(** The attribute [serializer] in the namespace of the class itself, if it
    has one. *)
Definition own_serializer (c : pyclass) : option (option string) :=
  match c with
  | ClsUser _ _ serializer => Some serializer
  | _ => None
  end.

(** The lookup of the attribute [serializer] on a class, along its method
    resolution order: the first class that has it decides. *)
Fixpoint getattr_serializer (mro : list pyclass) : result (option string) :=
  match mro with
  | [] => inl (AttributeError "serializer")
  | c :: mro' =>
      match own_serializer c with
      | Some serializer => inr serializer
      | None => getattr_serializer mro'
      end
  end.

(** [cls.serializer = serializer], on a user class: the class has the
    attribute in its own namespace afterwards. *)
Definition setattr_serializer (c : pyclass) (serializer : option string)
  : pyclass :=
  ClsUser (__name__ c) (__annotations__ c) serializer.

(** What a class declaration leaves on a subclass of [Event]:
    [cls_object] is the class itself, [__mro__[0]], and [cls_ancestors]
    the rest of [__mro__]. *)
Record event_type : Type := mk_event_type {
  cls_object : pyclass;
  cls_ancestors : list pyclass;
  _fields : dict pytype;
  _fieldset : gset string
}.

(** [cls.serializer], read on the class ([None] also where no class of the
    method resolution order has the attribute, which does not happen for
    a declared subclass of [Event]). *)
Definition serializer (cls : event_type) : option string :=
  match getattr_serializer (cls_object cls :: cls_ancestors cls) with
  | inr serializer => serializer
  | inl _ => None
  end.

(** ** Objects: plain values and request contexts *)

Section objects.
Context (V Message : Type).

(** [Request(key, topic, partition, message)] of [faust.types]. *)
Record Request : Type := mk_Request {
  key : V;
  topic : string;
  partition : Z;
  message : Message
}.

Inductive pyobj : Type :=
| Val (v : V)
| Req (r : Request).

(** An instance of an event class: its type and its [__dict__]. *)
Record event : Type := mk_event {
  type_ : event_type;
  __dict__ : dict pyobj
}.

End objects.

Arguments mk_Request {V Message} _ _ _ _.
Arguments key {V Message} _.
Arguments topic {V Message} _.
Arguments partition {V Message} _.
Arguments message {V Message} _.
Arguments Val {V Message} _.
Arguments Req {V Message} _.
Arguments mk_event {V Message} _ _.
Arguments type_ {V Message} _.
Arguments __dict__ {V Message} _.

(** [_kvrepr(d, sep=', ', fmt='{0}={1!r}')], with the default [fmt]:
    [repr] is the builtin, on the values of [d]. *)
Definition _kvrepr {A} (repr : A -> string) (d : dict A) (sep : string)
  : string :=
  join sep (map (fun kv => kv.1 +:+ "=" +:+ repr kv.2) d).

(** ** class Event *)

Module Event.

(** One iteration of [for cls in reversed(cls.__mro__)]; the state is
    [(fields, wanted_baseclass)]. *)
Definition mro_step (st : dict pytype * bool) (c : pyclass)
  : dict pytype * bool :=
  let '(fields, wanted_baseclass) := st in
  if wanted_baseclass then
    match __annotations__ c with
    | Some annotations => (PyDict.update fields annotations, wanted_baseclass)
    | None => (fields, wanted_baseclass)
    end
  else (fields, is_Event c).

Definition mro_fields (mro : list pyclass) : dict pytype :=
  (foldl mro_step ([], false) (reverse mro)).1.

(** The body of the loop once the root marker has been passed. *)
Definition merge (fields : dict pytype) (c : pyclass) : dict pytype :=
  match __annotations__ c with
  | Some annotations => PyDict.update fields annotations
  | None => fields
  end.

(** [__init_subclass__(cls, serializer=None)], on the class whose
    [__mro__] is [c :: ancestors].  The assignment of [serializer] writes
    the namespace of [c]; the loop, which reads the annotations and the
    identity of the classes only, rebinds [cls] and ends on [__mro__[0]],
    the class being declared, which receives [_fields] and [_fieldset]. *)
Definition __init_subclass__ (c : pyclass) (ancestors : list pyclass)
    (serializer : option string) : event_type :=
  let cls := setattr_serializer c serializer in
  let fields := mro_fields (c :: ancestors) in
  {| cls_object := cls;
     cls_ancestors := ancestors;
     _fields := fields;
     _fieldset := PyDict.frozenset fields |}.

Section records.
(** Values, payloads and transport messages. *)
Context {V P Message : Type}.
(** [message.value], the payload of a transport message. *)
Context (value : Message -> P).
(** [loads] and [dumps] of [faust.utils.serialization].  [dumps] is
    called with what the instance gives: for the serializer, the
    attribute of the class ([inl]) or the value of a field that shadows it
    ([inr]); for the mapping, the dictionary that [_asdict] builds ([inl])
    or the object that stands in for it ([inr]). *)
Context (serialization_loads :
           option string -> P -> result (dict (pyobj V Message))).
Context (serialization_dumps :
           option string + pyobj V Message ->
           dict (pyobj V Message) + pyobj V Message -> result P).
(** The builtin [repr]. *)
Context (repr : pyobj V Message -> string).
(** The interpreter on the value [v] of a field that the instance holds
    under the name of an attribute of the class: the call [v()], the
    dictionary [dict(v())] as an object, and the pairs that
    [for key in v: yield key, d[key]] yields, run to the end. *)
Context (call_value : pyobj V Message -> result (pyobj V Message)).
Context (dict_of_call : pyobj V Message -> result (pyobj V Message)).
Context (items_over :
           pyobj V Message -> dict (pyobj V Message) ->
           result (list (string * pyobj V Message))).

Definition missing_msg (cls : event_type) (missing : gset string) : string :=
  __name__ (cls_object cls) +:+ " missing required arguments: "
    +:+ join ", " (sorted missing).

Definition unexpected_msg (cls : event_type) (extraneous : gset string)
  : string :=
  __name__ (cls_object cls) +:+ " got unexpected arguments: "
    +:+ join ", " (sorted extraneous).

(** The call of [cls] with the keyword arguments [fields]: [__init__] on a
    fresh instance, whose [__dict__] is empty.  The instance is passed by
    position as [self], so a keyword [self] is refused by the call,
    before the body runs. *)
Definition __init__ (cls : event_type) (fields : dict (pyobj V Message))
  : result (event V Message) :=
  if decide ("self" ∈ PyDict.keys fields) then inl (MultipleValues "self")
  else
    let fieldset := PyDict.frozenset fields in
    let missing := _fieldset cls ∖ fieldset in
    if decide (missing ≠ ∅) then inl (TypeError (missing_msg cls missing))
    else
      let extraneous := fieldset ∖ _fieldset cls in
      if decide (extraneous ≠ ∅)
      then inl (TypeError (unexpected_msg cls extraneous))
      else inr (mk_event cls (PyDict.update [] fields)).

(** The keyword arguments of a call that unpacks [kwargs], then [more]: a
    key given twice is an error of the call itself. *)
Fixpoint call_kwargs (kwargs more : dict (pyobj V Message))
  : result (dict (pyobj V Message)) :=
  match more with
  | [] => inr kwargs
  | (k, v) :: more' =>
      if decide (k ∈ PyDict.keys kwargs) then inl (DuplicateKeyword k)
      else call_kwargs (kwargs ++ [(k, v)]) more'
  end.

(** [cls.loads(s)] with the extra keyword arguments [kwargs], those that
    the call binds to the parameter of that name (neither [cls] nor [s]). *)
Definition loads (cls : event_type) (s : P) (kwargs : dict (pyobj V Message))
  : result (event V Message) :=
  decoded ← serialization_loads (serializer cls) s;
  fields ← call_kwargs kwargs decoded;
  __init__ cls fields.

(** [cls.from_message(key, topic, partition, message)]. *)
Definition from_message (cls : event_type) (key : V) (topic : string)
    (partition : Z) (message : Message) : result (event V Message) :=
  let request := mk_Request key topic partition message in
  loads cls (value message) [("req", Req request)].

(** The generator of [_asitems] over the names [names], run to the end:
    the pairs it yields, or the [KeyError] of [self.__dict__[key]]. *)
Fixpoint _asitems_of (d : dict (pyobj V Message)) (names : list string)
  : result (list (string * pyobj V Message)) :=
  match names with
  | [] => inr []
  | key :: names' =>
      match PyDict.get key d with
      | None => inl (KeyError key)
      | Some v => items ← _asitems_of d names'; inr ((key, v) :: items)
      end
  end.

(** The body of [_asitems], which a call [self._asitems()] reaches when
    the instance has no field of that name.  [self._fields] is looked up
    on the instance first: a field named [_fields] is iterated in the
    place of the schema. *)
Definition _asitems (self : event V Message)
  : result (list (string * pyobj V Message)) :=
  match PyDict.get "_fields" (__dict__ self) with
  | Some v => items_over v (__dict__ self)
  | None => _asitems_of (__dict__ self) (PyDict.keys (_fields (type_ self)))
  end.

(** The body of [_asdict], which a call [self._asdict()] reaches when the
    instance has no field of that name: the dictionary it builds ([inl]),
    or, when a field named [_asitems] is called in the place of the
    method, the object [dict] makes of what it returns ([inr]). *)
Definition _asdict (self : event V Message)
  : result (dict (pyobj V Message) + pyobj V Message) :=
  match PyDict.get "_asitems" (__dict__ self) with
  | Some v => o ← dict_of_call v; inr (inr o)
  | None => items ← _asitems self; inr (inl (PyDict.of_items items))
  end.

(** The body of [dumps], which a call [self.dumps()] reaches when the
    instance has no field of that name: [self.serializer] is read first,
    then [self._asdict()] is called, both on the instance, where a field
    named [serializer] or [_asdict] comes before the attribute of the
    class. *)
Definition dumps (self : event V Message) : result P :=
  let serializer_arg :=
    match PyDict.get "serializer" (__dict__ self) with
    | Some v => inr v
    | None => inl (serializer (type_ self))
    end in
  mapping ← match PyDict.get "_asdict" (__dict__ self) with
            | Some v => o ← call_value v; inr (inr o)
            | None => _asdict self
            end;
  serialization_dumps serializer_arg mapping.

(** The names that construction and serialization use on the instance or
    in the call: a field with one of these names is not reached, or
    shadows an attribute of the class ([dumps] when the method is called
    as [self.dumps()]). *)
Definition reserved_names : list string :=
  ["self"; "serializer"; "_fields"; "_asitems"; "_asdict"; "dumps"].

(** No field of the schema has a reserved name. *)
Definition plain_schema (cls : event_type) : Prop :=
  Forall (fun name => name ∉ _fieldset cls) reserved_names.

Definition __repr__ (self : event V Message) : string :=
  "<" +:+ __name__ (cls_object (type_ self)) +:+ ": "
    +:+ _kvrepr repr (__dict__ self) ", " +:+ ">".

(** The representation as the specification words it: the fields in schema
    order, whatever the order of [self.__dict__]. *)
Definition repr_in_schema_order (self : event V Message) : string :=
  "<" +:+ __name__ (cls_object (type_ self)) +:+ ": "
    +:+ _kvrepr repr
          (omap (fun name => pair name <$> PyDict.get name (__dict__ self))
                (PyDict.keys (_fields (type_ self)))) ", "
    +:+ ">".

(** [self.req]: the instance attribute, else the class attribute [None]. *)
Definition req (self : event V Message) : option (pyobj V Message) :=
  PyDict.get "req" (__dict__ self).

End records.
End Event.

(** ** class FieldDescriptor *)

Inductive NoneType : Type := PyNone.

Module FieldDescriptor.

Record t : Type := __init__ { field : string }.

Section join.
(** The builtin [repr] on [str], and the lines printed so far. *)
Context (repr_str : string -> string).

(** [self.join(other)]: prints, and falls off the end of the body. *)
Definition join (self other : t) (stdout : list string)
  : NoneType * list string :=
  let line :=
    "join " +:+ repr_str (field self) +:+ " with " +:+ repr_str (field other) in
  (PyNone, stdout ++ [line]).

(** [self & other]. *)
Definition __and__ (self other : t) (stdout : list string)
  : NoneType * list string :=
  join self other stdout.

End join.

Definition __repr__ (self : t) : string :=
  "<FieldDescriptor: " +:+ field self +:+ ">".

End FieldDescriptor.

(** ** class BoundEvent *)

Module BoundEvent.
Section bound.
Context {O : Type}.

(** The attributes of a bound event. *)
Inductive attr : Type :=
| AttrEvent (event : event_type)
| AttrObj (obj : O)
| AttrField (fd : FieldDescriptor.t).

Definition _make_field_descriptor (field : string) : FieldDescriptor.t :=
  FieldDescriptor.__init__ field.

(** [BoundEvent(event, obj)]: the [__dict__] of the new instance. *)
Definition __init__ (event : event_type) (obj : O) : result (dict attr) :=
  match __annotations__ (cls_object event) with
  | None => inl (AttributeError "__annotations__")
  | Some annotations =>
      inr (PyDict.update
             [("event", AttrEvent event); ("obj", AttrObj obj)]
             (PyDict.of_items
                (map (fun field => (field, AttrField (_make_field_descriptor field)))
                     (PyDict.keys annotations))))
  end.

(** An attribute that is the descriptor of the name it is stored under. *)
Definition is_own_descriptor (kv : string * attr) : Prop :=
  kv.2 = AttrField (FieldDescriptor.__init__ kv.1).

(** The descriptors a bound event carries, by attribute name. *)
Definition descriptors (self : dict attr) : dict FieldDescriptor.t :=
  omap (fun kv => match kv.2 with
                  | AttrField fd => Some (kv.1, fd)
                  | _ => None
                  end) self.

End bound.
Arguments attr : clear implicits.
End BoundEvent.

(** ** A small universe of values and a codec, for concrete records *)

Module Example.

Inductive atom : Type :=
| AInt (z : Z)
| AStr (s : string).

(** A payload is the encoded mapping; a transport message is its payload. *)
Definition payload : Type := list (string * atom).
Definition obj : Type := pyobj atom payload.
Definition value (message : payload) : payload := message.

Definition repr (o : obj) : string :=
  match o with
  | Val (AInt z) => pretty z
  | Val (AStr s) => "'" +:+ s +:+ "'"
  | Req _ => "<Request>"
  end.

Definition repr_str (s : string) : string := "'" +:+ s +:+ "'".

(** One codec, registered under ["json"]. *)
Definition encode_item (kv : string * obj) : result (string * atom) :=
  match kv.2 with
  | Val v => inr (kv.1, v)
  | Req _ => inl (SerializationError "not serializable")
  end.

(** The name a serializer argument stands for: the attribute of the
    class, or a field's value when it is a [str]. *)
Definition serializer_name (serializer : option string + obj)
  : option string :=
  match serializer with
  | inl name => name
  | inr (Val (AStr name)) => Some name
  | inr _ => None
  end.

Definition serialization_dumps (serializer : option string + obj)
    (mapping : dict obj + obj) : result payload :=
  match serializer_name serializer with
  | Some "json" =>
      match mapping with
      | inl d => mapM encode_item d
      | inr _ => inl (SerializationError "not a mapping")
      end
  | _ => inl (SerializationError "unknown serializer")
  end.

Definition serialization_loads (serializer : option string) (s : payload)
  : result (dict obj) :=
  match serializer with
  | Some "json" => inr (map (fun kv => (kv.1, Val kv.2)) s)
  | _ => inl (SerializationError "unknown serializer")
  end.

(** The interpreter on the values of the examples: none is callable, a
    [str] iterates over its characters, a request over its four members,
    of which [partition] is an [int]. *)
Definition type_name (o : obj) : string :=
  match o with
  | Val (AInt _) => "int"
  | Val (AStr _) => "str"
  | Req _ => "Request"
  end.

Definition call_value (o : obj) : result obj :=
  inl (TypeError ("'" +:+ type_name o +:+ "' object is not callable")).

Definition dict_of_call (o : obj) : result obj := call_value o.

Fixpoint characters (s : string) : list string :=
  match s with
  | EmptyString => []
  | String a s' => String a EmptyString :: characters s'
  end.

Definition items_over (o : obj) (d : dict obj)
  : result (list (string * obj)) :=
  match o with
  | Val (AInt _) => inl (TypeError "'int' object is not iterable")
  | Val (AStr s) => Event._asitems_of d (characters s)
  | Req r =>
      match key r with
      | AInt z => inl (KeyError (pretty z))
      | AStr k =>
          match PyDict.get k d, PyDict.get (topic r) d with
          | None, _ => inl (KeyError k)
          | Some _, None => inl (KeyError (topic r))
          | Some _, Some _ => inl (KeyError (pretty (partition r)))
          end
      end
  end.

(** [class Order(Event, serializer='json')] with [amount: int] and
    [currency: str]. *)
Definition Order : event_type :=
  Event.__init_subclass__
    (ClsUser "Order" (Some [("amount", "int"); ("currency", "str")]) None)
    [ClsEvent; ClsObject] (Some "json").

(** [class Base(Event, serializer='json')] with [a: int], [b: int], and
    [class Derived(Base)] with [b: str], [c: float]. *)
Definition Base_cls : pyclass :=
  ClsUser "Base" (Some [("a", "int"); ("b", "int")]) (Some "json").

Definition Derived_cls : pyclass :=
  ClsUser "Derived" (Some [("b", "str"); ("c", "float")]) None.

Definition Derived : event_type :=
  Event.__init_subclass__ Derived_cls [Base_cls; ClsEvent; ClsObject] None.

(** [Derived] as the declaration finds it, before [serializer] is
    assigned on it. *)
Definition Derived_unassigned : pyclass :=
  ClsPlain "Derived" (Some [("b", "str"); ("c", "float")]).

(** [Order(amount=100, currency='USD')] and
    [Order(currency='USD', amount=100)], as keyword arguments. *)
Definition usd_100 : dict obj :=
  [("amount", Val (AInt 100)); ("currency", Val (AStr "USD"))].

Definition usd_100_reordered : dict obj :=
  [("currency", Val (AStr "USD")); ("amount", Val (AInt 100))].

(** Inputs that miss schema fields and have keys outside the schema. *)
Definition amount_and_zz : dict obj :=
  [("amount", Val (AInt 100)); ("zz", Val (AInt 1))].

Definition a_and_x : dict obj :=
  [("a", Val (AInt 1)); ("x", Val (AInt 2))].

(** [class Ser(Event, serializer='json')] with [serializer: str] and
    [n: int], and [Ser(serializer='avro', n=1)]. *)
Definition Ser : event_type :=
  Event.__init_subclass__
    (ClsPlain "Ser" (Some [("serializer", "str"); ("n", "int")]))
    [ClsEvent; ClsObject] (Some "json").

Definition avro_1 : dict obj :=
  [("serializer", Val (AStr "avro")); ("n", Val (AInt 1))].

(** [class WithSelf(Event)] with [self: int], and the keyword arguments
    [self=1], alone and next to the fields of [Order]. *)
Definition WithSelf : event_type :=
  Event.__init_subclass__ (ClsPlain "WithSelf" (Some [("self", "int")]))
    [ClsEvent; ClsObject] None.

Definition self_1 : dict obj := [("self", Val (AInt 1))].

Definition amount_and_self : dict obj :=
  [("amount", Val (AInt 100)); ("self", Val (AInt 1))].

(** Two field descriptors. *)
Definition x_field : FieldDescriptor.t := FieldDescriptor.__init__ "x".
Definition y_field : FieldDescriptor.t := FieldDescriptor.__init__ "y".

(** [class Tracked(Event, serializer='json')] with [req: Request] and
    [amount: int]: a schema that names the request context as a field. *)
Definition Tracked_cls : pyclass :=
  ClsUser "Tracked" (Some [("req", "Request"); ("amount", "int")]) None.

Definition Tracked : event_type :=
  Event.__init_subclass__ Tracked_cls [ClsEvent; ClsObject] (Some "json").

(** [class Mixin: pass], which annotates nothing and has no serializer,
    and [class Plain(Mixin, Event): pass]. *)
Definition Mixin_cls : pyclass := ClsPlain "Mixin" (Some []).

Definition Plain : event_type :=
  Event.__init_subclass__ (ClsUser "Plain" (Some []) None)
    [Mixin_cls; ClsEvent; ClsObject] None.

Definition Base : event_type :=
  Event.__init_subclass__ Base_cls [ClsEvent; ClsObject] (Some "json").

(** [Order(amount=100)] and [Order(amount=100, currency='USD', zz=1)]. *)
Definition amount_only : dict obj := [("amount", Val (AInt 100))].

Definition usd_100_zz : dict obj :=
  [("amount", Val (AInt 100)); ("currency", Val (AStr "USD"));
   ("zz", Val (AInt 1))].

(** The keyword arguments of a [Tracked] record made from a message whose
    payload is [amount_payload], and a payload that has a key [req]. *)
Definition amount_payload : payload := [("amount", AInt 100)].

Definition req_payload : payload := [("amount", AInt 100); ("req", AInt 7)].

(** [class Click(Event)] with [event: str] and [x: int]: a field named as
    an attribute of bound events. *)
Definition Click : event_type :=
  Event.__init_subclass__
    (ClsUser "Click" (Some [("event", "str"); ("x", "int")]) None)
    [ClsEvent; ClsObject] None.

Definition from_message :=
  Event.from_message value serialization_loads.
Definition loads := Event.loads serialization_loads.
Definition dumps :=
  Event.dumps serialization_dumps call_value dict_of_call items_over.
Definition construct := Event.__init__ (V := atom) (Message := payload).

End Example.

(** * Properties *)

(** ** Dictionaries *)

Section dict_facts.
Context {A : Type}.
Implicit Types (d acc other : dict A) (k : string) (v : A).

Lemma get_None k d : PyDict.get k d = None <-> k ∉ PyDict.keys d.
Proof.
  unfold PyDict.keys. induction d as [|[k' v'] d IH]; simpl.
  - split; [intros _; apply not_elem_of_nil | done].
  - rewrite not_elem_of_cons. destruct (decide (k = k')) as [->|Hne].
    + split; [discriminate | intros [? _]; congruence].
    + rewrite IH. split; [by split | by intros [_ ?]].
Qed.

Lemma get_is_Some k d : is_Some (PyDict.get k d) <-> k ∈ PyDict.keys d.
Proof.
  rewrite <- not_eq_None_Some, get_None.
  destruct (decide (k ∈ PyDict.keys d)); naive_solver.
Qed.

Lemma set_fresh k v d : k ∉ PyDict.keys d -> PyDict.set k v d = d ++ [(k, v)].
Proof.
  unfold PyDict.keys. induction d as [|[k' v'] d IH]; simpl; [done|].
  rewrite not_elem_of_cons. intros [Hne Hnin].
  destruct (decide (k = k')); [done|]. by rewrite IH.
Qed.

Lemma keys_set k v d :
  PyDict.keys (PyDict.set k v d)
  = if decide (k ∈ PyDict.keys d) then PyDict.keys d else PyDict.keys d ++ [k].
Proof.
  unfold PyDict.keys. induction d as [|[k' v'] d IH].
  - destruct (decide (k ∈ _)) as [Hin|_]; [|done]. by apply elem_of_nil in Hin.
  - cbn [PyDict.set]. destruct (decide (k = k')) as [->|Hne].
    + rewrite decide_True; [done|]. rewrite fmap_cons. apply list_elem_of_here.
    + rewrite !fmap_cons, IH. cbn [fst].
      destruct (decide (k ∈ d.*1)) as [Hin|Hnin].
      * rewrite decide_True; [done|]. by apply list_elem_of_further.
      * rewrite decide_False; [done|]. rewrite not_elem_of_cons. done.
Qed.

Lemma get_set k k' v d :
  PyDict.get k' (PyDict.set k v d)
  = if decide (k' = k) then Some v else PyDict.get k' d.
Proof.
  induction d as [|[k0 v0] d IH]; simpl.
  - by destruct (decide (k' = k)).
  - destruct (decide (k = k0)) as [->|Hne]; simpl.
    + by destruct (decide (k' = k0)).
    + rewrite IH. destruct (decide (k' = k0)) as [->|]; [|done].
      by rewrite decide_False by done.
Qed.

Lemma NoDup_keys_set k v d :
  NoDup (PyDict.keys d) -> NoDup (PyDict.keys (PyDict.set k v d)).
Proof.
  intros Hd. rewrite keys_set. case_decide; [done|].
  apply NoDup_app. split_and!; [done| |apply NoDup_singleton].
  intros x Hx ->%list_elem_of_singleton. done.
Qed.

Lemma NoDup_keys_update d other :
  NoDup (PyDict.keys d) -> NoDup (PyDict.keys (PyDict.update d other)).
Proof.
  unfold PyDict.update. revert d.
  induction other as [|[k v] other IH]; intros d Hd; simpl; [done|].
  apply IH. by apply NoDup_keys_set.
Qed.

Lemma update_fresh acc d :
  NoDup (PyDict.keys (acc ++ d)) -> PyDict.update acc d = acc ++ d.
Proof.
  unfold PyDict.update, PyDict.keys. revert acc.
  induction d as [|[k v] d IH]; intros acc Hnd; simpl.
  - by rewrite app_nil_r.
  - assert (Hk : k ∉ PyDict.keys acc).
    { rewrite fmap_app in Hnd. apply NoDup_app in Hnd as (_ & Hdisj & _).
      intros Hin. apply (Hdisj k Hin). rewrite fmap_cons. apply list_elem_of_here. }
    rewrite (set_fresh _ _ _ Hk), (cons_middle (k, v) acc d), (assoc_L (++)).
    apply IH. by rewrite <- (assoc_L (++)), <- cons_middle.
Qed.

Lemma of_items_NoDup d : NoDup (PyDict.keys d) -> PyDict.of_items d = d.
Proof. intros Hd. unfold PyDict.of_items. by rewrite update_fresh. Qed.

Lemma elem_of_frozenset k d : k ∈ PyDict.frozenset d <-> k ∈ PyDict.keys d.
Proof. unfold PyDict.frozenset. by rewrite elem_of_list_to_set. Qed.

Lemma elem_of_keys_update k d other :
  k ∈ PyDict.keys (PyDict.update d other)
  <-> k ∈ PyDict.keys d \/ k ∈ PyDict.keys other.
Proof.
  unfold PyDict.update. revert d.
  induction other as [|[k' v'] other IH]; intros d.
  - cbn. rewrite elem_of_nil. tauto.
  - cbn [foldl fst snd]. rewrite IH, keys_set.
    change (PyDict.keys ((k', v') :: other)) with (k' :: PyDict.keys other).
    rewrite elem_of_cons. case_decide.
    + split; [tauto|]. intros [?|[->|?]]; auto.
    + rewrite elem_of_app, list_elem_of_singleton. tauto.
Qed.

Lemma get_update k d other :
  PyDict.get k (PyDict.update d other)
  = match PyDict.get k (reverse other) with
    | Some v => Some v
    | None => PyDict.get k d
    end.
Proof.
  unfold PyDict.update. revert d.
  induction other as [|[k' v'] other IH]; intros d; simpl; [done|].
  rewrite IH, reverse_cons, get_set.
  assert (Happ : forall l1 l2 : dict A,
             PyDict.get k (l1 ++ l2)
             = match PyDict.get k l1 with
               | Some v => Some v
               | None => PyDict.get k l2
               end).
  { intros l1 l2. induction l1 as [|[k1 v1] l1 IH1]; simpl; [done|].
    by destruct (decide (k = k1)). }
  rewrite Happ. simpl. destruct (PyDict.get k (reverse other)); [done|].
  by destruct (decide (k = k')).
Qed.

(** An update never moves a key that is already there: the old keys stay
    first, in their order. *)
Lemma keys_update_prefix d other :
  PyDict.keys d `prefix_of` PyDict.keys (PyDict.update d other).
Proof.
  unfold PyDict.update. revert d.
  induction other as [|[k v] other IH]; intros d; cbn [foldl fst snd]; [done|].
  etrans; [|apply IH]. rewrite keys_set.
  case_decide; [done | by apply prefix_app_r].
Qed.

Lemma equal_frozenset d1 d2 :
  PyDict.equal d1 d2 -> PyDict.frozenset d1 = PyDict.frozenset d2.
Proof.
  intros Heq. apply set_eq. intros k.
  by rewrite !elem_of_frozenset, <- !get_is_Some, (Heq k).
Qed.

End dict_facts.

(** ** [sorted] *)

Lemma sorted_StronglySorted (s : gset string) :
  StronglySorted String.le (sorted s).
Proof. unfold sorted. apply StronglySorted_merge_sort; apply _. Qed.

Lemma elem_of_sorted (s : gset string) (x : string) : x ∈ sorted s <-> x ∈ s.
Proof. unfold sorted. by rewrite merge_sort_Permutation, elem_of_elements. Qed.

Lemma NoDup_sorted (s : gset string) : NoDup (sorted s).
Proof.
  unfold sorted. rewrite merge_sort_Permutation. apply NoDup_elements.
Qed.

(** ** Schema derivation *)

Section schema.
Implicit Types (c d : pyclass) (mro below above : list pyclass).

Lemma is_Event_false c : c <> ClsEvent -> is_Event c = false.
Proof. by destruct c. Qed.

Lemma foldl_mro_step_wanted (fields : dict pytype) mro :
  foldl Event.mro_step (fields, true) mro
  = (foldl Event.merge fields mro, true).
Proof.
  revert fields. induction mro as [|c mro IH]; intros fields; [done|].
  cbn [foldl]. rewrite <- IH. f_equal. unfold Event.mro_step, Event.merge.
  by destruct (__annotations__ c).
Qed.

Lemma foldl_mro_step_above above :
  ClsEvent ∉ above ->
  foldl Event.mro_step ([], false) (reverse above) = ([], false).
Proof.
  induction above as [|c above IH]; [done|].
  rewrite not_elem_of_cons. intros [Hc Habove].
  rewrite reverse_cons, foldl_app, IH by done. cbn.
  by rewrite is_Event_false.
Qed.

Lemma mro_fields_below below above :
  ClsEvent ∉ above ->
  Event.mro_fields (below ++ ClsEvent :: above)
  = foldl Event.merge [] (reverse below).
Proof.
  intros Habove. unfold Event.mro_fields.
  rewrite reverse_app, reverse_cons, <- (assoc_L (++)), !foldl_app.
  rewrite foldl_mro_step_above by done. cbn [foldl Event.mro_step is_Event].
  by rewrite foldl_mro_step_wanted.
Qed.

Lemma elem_of_keys_merge (name : string) (acc : dict pytype) mro :
  name ∈ PyDict.keys (foldl Event.merge acc mro)
  <-> name ∈ PyDict.keys acc
      \/ exists d ann, d ∈ mro /\ __annotations__ d = Some ann
                       /\ name ∈ PyDict.keys ann.
Proof.
  revert acc. induction mro as [|c mro IH]; intros acc; cbn [foldl].
  - split; [by left|]. intros [?|(d & ann & Hd & _)]; [done|].
    by apply elem_of_nil in Hd.
  - rewrite IH. unfold Event.merge.
    destruct (__annotations__ c) as [ann|] eqn:Hc.
    + rewrite elem_of_keys_update. split.
      * intros [[?|?]|(d & ann' & Hd & Hann & Hin)]; [by left| |].
        -- right. exists c, ann. split_and!; [apply list_elem_of_here|done..].
        -- right. exists d, ann'. split_and!; [by apply list_elem_of_further|done..].
      * intros [?|(d & ann' & Hd & Hann & Hin)]; [by left; left|].
        apply elem_of_cons in Hd as [->|Hd].
        -- left; right. congruence.
        -- right. by exists d, ann'.
    + split.
      * intros [?|(d & ann' & Hd & Hann & Hin)]; [by left|].
        right. exists d, ann'. split_and!; [by apply list_elem_of_further|done..].
      * intros [?|(d & ann' & Hd & Hann & Hin)]; [by left|].
        apply elem_of_cons in Hd as [->|Hd]; [congruence|].
        right. by exists d, ann'.
Qed.

Lemma NoDup_keys_merge (acc : dict pytype) mro :
  NoDup (PyDict.keys acc) -> NoDup (PyDict.keys (foldl Event.merge acc mro)).
Proof.
  revert acc. induction mro as [|c mro IH]; intros acc Hacc; [done|].
  cbn [foldl]. apply IH. unfold Event.merge.
  destruct (__annotations__ c); [by apply NoDup_keys_update | done].
Qed.

Lemma NoDup_keys_mro_step (st : dict pytype * bool) mro :
  NoDup (PyDict.keys st.1) ->
  NoDup (PyDict.keys (foldl Event.mro_step st mro).1).
Proof.
  revert st. induction mro as [|c mro IH]; intros [fields wanted] Hst; [done|].
  cbn [foldl]. apply IH. unfold Event.mro_step.
  destruct wanted; [|done].
  destruct (__annotations__ c); [by apply NoDup_keys_update | done].
Qed.

(** The schema of a declared class has no repeated field name, and its
    [_fieldset] is the set of these names. *)
Lemma NoDup_keys_fields c ancestors ser :
  NoDup (PyDict.keys (_fields (Event.__init_subclass__ c ancestors ser))).
Proof. apply NoDup_keys_mro_step. apply NoDup_nil_2. Qed.

Lemma fieldset_fields c ancestors ser :
  _fieldset (Event.__init_subclass__ c ancestors ser)
  = PyDict.frozenset (_fields (Event.__init_subclass__ c ancestors ser)).
Proof. done. Qed.

(** C3. With [Base] declaring the fields [a] and [b] and [Derived(Base)]
    declaring [b] again, with another type, and [c], the schema of
    [Derived] is [a], [b], [c] in this order, and [b] has the type that
    [Derived] declares: the last type wins, the first position wins. *)
Theorem schema_merge_ordering (a b c : string) (ta tb tb' tc : pytype)
    (base derived : string) (sb sd ser : option string) above :
  a <> b -> b <> c -> a <> c -> ClsEvent ∉ above ->
  _fields (Event.__init_subclass__
             (ClsUser derived (Some [(b, tb'); (c, tc)]) sd)
             (ClsUser base (Some [(a, ta); (b, tb)]) sb :: ClsEvent :: above)
             ser)
  = [(a, ta); (b, tb'); (c, tc)].
Proof.
  intros Hab Hbc Hac Habove. cbn [Event.__init_subclass__ _fields].
  change (ClsUser derived (Some [(b, tb'); (c, tc)]) sd
          :: ClsUser base (Some [(a, ta); (b, tb)]) sb :: ClsEvent :: above)
    with ([ClsUser derived (Some [(b, tb'); (c, tc)]) sd;
           ClsUser base (Some [(a, ta); (b, tb)]) sb] ++ ClsEvent :: above).
  rewrite (mro_fields_below _ above Habove).
  cbn. repeat (case_decide; simplify_eq; cbn); done.
Qed.

Lemma schema_merge_ordering_witness :
  _fields (Event.__init_subclass__ Example.Derived_cls
             [Example.Base_cls; ClsEvent; ClsObject] None)
  = [("a", "int"); ("b", "str"); ("c", "float")].
Proof.
  apply (schema_merge_ordering "a" "b" "c" "int" "int" "str" "float"
           "Base" "Derived" (Some "json") None None [ClsObject]).
  - done.
  - done.
  - done.
  - by apply not_elem_of_cons; split; [|apply not_elem_of_nil].
Defined.

(** C7, as the code has it.  The schema is computed from the classes
    strictly below the root marker [Event] in the method resolution order
    and from nothing else: its field names are exactly the names these
    classes annotate.  A name that only [Event] or a class above it
    annotates is not a schema field; one that a class below annotates
    again is. *)
Theorem root_fields_excluded c ancestors below above ser :
  c :: ancestors = below ++ ClsEvent :: above ->
  ClsEvent ∉ above ->
  _fields (Event.__init_subclass__ c ancestors ser)
    = foldl Event.merge [] (reverse below)
  /\ (forall name : string,
        name ∈ _fieldset (Event.__init_subclass__ c ancestors ser)
        <-> exists d ann, d ∈ below /\ __annotations__ d = Some ann
                          /\ name ∈ PyDict.keys ann)
  /\ (forall name : string,
        (forall d ann, d ∈ below -> __annotations__ d = Some ann ->
                       name ∉ PyDict.keys ann) ->
        name ∉ _fieldset (Event.__init_subclass__ c ancestors ser)).
Proof.
  intros Hmro Habove.
  assert (Hfields : _fields (Event.__init_subclass__ c ancestors ser)
                    = foldl Event.merge [] (reverse below)).
  { cbn [Event.__init_subclass__ _fields]. rewrite Hmro.
    by apply mro_fields_below. }
  assert (Hnames : forall name : string,
             name ∈ _fieldset (Event.__init_subclass__ c ancestors ser)
             <-> exists d ann, d ∈ below /\ __annotations__ d = Some ann
                               /\ name ∈ PyDict.keys ann).
  { intros name.
    rewrite fieldset_fields, elem_of_frozenset, Hfields, elem_of_keys_merge.
    split.
    - intros [Hnil|(d & ann & Hd & Hann & Hin)];
        [by apply elem_of_nil in Hnil|].
      exists d, ann. by rewrite elem_of_reverse in Hd.
    - intros (d & ann & Hd & Hann & Hin). right.
      exists d, ann. by rewrite elem_of_reverse. }
  split_and!; [done..|].
  intros name Hbelow (d & ann & Hd & Hann & Hin)%Hnames.
  by apply (Hbelow d ann).
Qed.

Lemma root_fields_excluded_witness :
  _fields Example.Order = [("amount", "int"); ("currency", "str")]
  /\ ("req" ∉ _fieldset Example.Order)
  /\ ("_fields" ∉ _fieldset Example.Order).
Proof.
  destruct (root_fields_excluded
              (ClsUser "Order" (Some [("amount", "int"); ("currency", "str")]) None)
              [ClsEvent; ClsObject]
              [ClsUser "Order" (Some [("amount", "int"); ("currency", "str")]) None]
              [ClsObject] (Some "json")) as (Hfields & _ & Hnot).
  - reflexivity.
  - apply not_elem_of_cons; split; [discriminate | apply not_elem_of_nil].
  - split_and!; [exact Hfields | |].
    + apply Hnot. intros d ann ->%list_elem_of_singleton [= <-]. compute_done.
    + apply Hnot. intros d ann ->%list_elem_of_singleton [= <-]. compute_done.
Defined.

(** C7 as stated fails: [Event] annotates [req], and [req] is a field of
    the schema of [Tracked], which annotates it again. *)
Lemma root_name_redeclared_counterexample :
  __annotations__ ClsEvent
    = Some [("req", "Request"); ("_fields", "Mapping[str, type]")]
  /\ _fields Example.Tracked = [("req", "Request"); ("amount", "int")]
  /\ "req" ∈ _fieldset Example.Tracked.
Proof. split_and!; [reflexivity | reflexivity | compute_done]. Qed.

(** C10. A class declared without a [serializer] argument reads [None] as
    its serializer afterwards, whatever serializers its ancestors carry:
    the declaration assigns the attribute on the class itself, where the
    lookup finds it first.  Before the assignment, a class without the
    attribute reads that of its ancestors. *)
Theorem serializer_not_inherited c ancestors :
  serializer (Event.__init_subclass__ c ancestors None) = None
  /\ getattr_serializer
       (cls_object (Event.__init_subclass__ c ancestors None) :: ancestors)
     = inr None
  /\ (own_serializer c = None ->
      getattr_serializer (c :: ancestors) = getattr_serializer ancestors).
Proof.
  split_and!; [reflexivity | reflexivity |].
  intros Hown. cbn [getattr_serializer]. by rewrite Hown.
Qed.

Lemma serializer_not_inherited_witness :
  getattr_serializer
    (Example.Derived_unassigned :: [Example.Base_cls; ClsEvent; ClsObject])
    = inr (Some "json")
  /\ serializer
       (Event.__init_subclass__ Example.Derived_unassigned
          [Example.Base_cls; ClsEvent; ClsObject] None) = None.
Proof.
  destruct (serializer_not_inherited Example.Derived_unassigned
              [Example.Base_cls; ClsEvent; ClsObject])
    as (Hafter & _ & Hbefore).
  split; [|exact Hafter]. rewrite Hbefore; reflexivity.
Defined.

End schema.

(** ** Construction and validation *)

Section construction.
Context {V Message : Type}.
Implicit Types (cls : event_type) (fields : dict (pyobj V Message)).

Lemma init_self cls fields :
  "self" ∈ PyDict.keys fields ->
  Event.__init__ cls fields = inl (MultipleValues "self").
Proof. intros Hself. unfold Event.__init__. by rewrite decide_True. Qed.

Lemma init_missing cls fields :
  "self" ∉ PyDict.keys fields ->
  _fieldset cls ∖ PyDict.frozenset fields ≠ ∅ ->
  Event.__init__ cls fields
  = inl (TypeError (Event.missing_msg cls
                      (_fieldset cls ∖ PyDict.frozenset fields))).
Proof.
  intros Hself Hm. unfold Event.__init__.
  rewrite decide_False by done. by rewrite decide_True.
Qed.

Lemma init_unexpected cls fields :
  "self" ∉ PyDict.keys fields ->
  _fieldset cls ∖ PyDict.frozenset fields = ∅ ->
  PyDict.frozenset fields ∖ _fieldset cls ≠ ∅ ->
  Event.__init__ cls fields
  = inl (TypeError (Event.unexpected_msg cls
                      (PyDict.frozenset fields ∖ _fieldset cls))).
Proof.
  intros Hself Hm Hx. unfold Event.__init__.
  rewrite decide_False by done.
  rewrite decide_False by (by intros []). by rewrite decide_True.
Qed.

Lemma init_exact cls fields :
  "self" ∉ PyDict.keys fields ->
  PyDict.frozenset fields = _fieldset cls ->
  Event.__init__ cls fields = inr (mk_event cls (PyDict.update [] fields)).
Proof.
  intros Hself Heq. unfold Event.__init__. rewrite Heq.
  rewrite decide_False by done.
  rewrite decide_False by (intros []; set_solver).
  rewrite decide_False by (intros []; set_solver). done.
Qed.

Lemma init_ok_iff cls fields :
  is_ok (Event.__init__ cls fields)
  <-> ("self" ∉ PyDict.keys fields)
      /\ PyDict.frozenset fields = _fieldset cls.
Proof.
  split.
  - unfold Event.__init__.
    destruct (decide ("self" ∈ PyDict.keys fields)) as [|Hself]; [done|].
    destruct (decide (_fieldset cls ∖ PyDict.frozenset fields ≠ ∅))
      as [|Hm]; [done|].
    destruct (decide (PyDict.frozenset fields ∖ _fieldset cls ≠ ∅))
      as [|Hx]; [done|].
    intros _. split; [done|]. apply dec_stable in Hm. apply dec_stable in Hx.
    apply set_eq. intros x. split; intros Hin.
    + destruct (decide (x ∈ _fieldset cls)); [done|].
      assert (x ∈ PyDict.frozenset fields ∖ _fieldset cls) by set_solver.
      set_solver.
    + destruct (decide (x ∈ PyDict.frozenset fields)); [done|].
      assert (x ∈ _fieldset cls ∖ PyDict.frozenset fields) by set_solver.
      set_solver.
  - intros [Hself Heq]. by rewrite init_exact.
Qed.

(** What a successful construction tells about its input. *)
Lemma init_inr_inv cls fields record :
  Event.__init__ cls fields = inr record ->
  ("self" ∉ PyDict.keys fields)
  /\ PyDict.frozenset fields = _fieldset cls
  /\ record = mk_event cls (PyDict.update [] fields).
Proof.
  intros Hinit.
  assert (Hok : is_ok (Event.__init__ cls fields)) by by rewrite Hinit.
  apply init_ok_iff in Hok as [Hself Heq]. split_and!; [done..|].
  rewrite init_exact in Hinit by done. by injection Hinit as <-.
Qed.

Lemma missing_msg_not_unexpected cls (missing extraneous : gset string) :
  Event.missing_msg cls missing <> Event.unexpected_msg cls extraneous.
Proof.
  unfold Event.missing_msg, Event.unexpected_msg.
  intros Heq%(inj (String.app _)). discriminate Heq.
Qed.

(** C2, as the code has it, for keyword arguments none of which is named
    [self].  Construction succeeds exactly when the keys of the input are
    the field names of the schema, and then stores the input as it is,
    whatever the values are.  When schema fields are missing it raises the
    missing-arguments [TypeError], which lists the missing names in
    ascending order; the unexpected-arguments [TypeError], which lists the
    extra names in ascending order, is raised when no field is missing and
    the input has keys outside the schema. *)
Theorem construct_validation cls fields :
  NoDup (PyDict.keys fields) ->
  "self" ∉ PyDict.keys fields ->
  (is_ok (Event.__init__ cls fields)
   <-> PyDict.frozenset fields = _fieldset cls)
  /\ (_fieldset cls ∖ PyDict.frozenset fields ≠ ∅ ->
      exists missing : list string,
        Event.__init__ cls fields
        = inl (TypeError (__name__ (cls_object cls)
                            +:+ " missing required arguments: "
                            +:+ join ", " missing))
        /\ StronglySorted String.le missing /\ NoDup missing
        /\ forall x, x ∈ missing
                     <-> x ∈ _fieldset cls /\ x ∉ PyDict.keys fields)
  /\ (_fieldset cls ∖ PyDict.frozenset fields = ∅ ->
      PyDict.frozenset fields ∖ _fieldset cls ≠ ∅ ->
      exists extraneous : list string,
        Event.__init__ cls fields
        = inl (TypeError (__name__ (cls_object cls)
                            +:+ " got unexpected arguments: "
                            +:+ join ", " extraneous))
        /\ StronglySorted String.le extraneous /\ NoDup extraneous
        /\ forall x, x ∈ extraneous
                     <-> x ∈ PyDict.keys fields /\ x ∉ _fieldset cls)
  /\ (PyDict.frozenset fields = _fieldset cls ->
      Event.__init__ cls fields = inr (mk_event cls fields)).
Proof.
  intros Hnd Hself. split_and!.
  - rewrite init_ok_iff. split; [by intros [_ ?] | by split].
  - intros Hm. exists (sorted (_fieldset cls ∖ PyDict.frozenset fields)).
    split_and!.
    + by apply init_missing.
    + apply sorted_StronglySorted.
    + apply NoDup_sorted.
    + intros x.
      by rewrite elem_of_sorted, elem_of_difference, elem_of_frozenset.
  - intros Hm Hx. exists (sorted (PyDict.frozenset fields ∖ _fieldset cls)).
    split_and!.
    + by apply init_unexpected.
    + apply sorted_StronglySorted.
    + apply NoDup_sorted.
    + intros x.
      by rewrite elem_of_sorted, elem_of_difference, elem_of_frozenset.
  - intros Heq. rewrite init_exact by done. do 2 f_equal.
    by apply (update_fresh []).
Qed.

(** C5, as the code has it.  An input that omits schema fields or has
    keys outside the schema never yields a record.  When it does both and
    no keyword is named [self], the check for missing fields, made on the
    whole schema and the whole input, raises first: the error is the
    missing-arguments one, and the extra keys are not reported. *)
Theorem missing_reported_before_unexpected cls fields :
  (_fieldset cls ∖ PyDict.frozenset fields ≠ ∅
   \/ PyDict.frozenset fields ∖ _fieldset cls ≠ ∅ ->
   ~ is_ok (Event.__init__ cls fields))
  /\ ("self" ∉ PyDict.keys fields ->
      _fieldset cls ∖ PyDict.frozenset fields ≠ ∅ ->
      PyDict.frozenset fields ∖ _fieldset cls ≠ ∅ ->
      Event.__init__ cls fields
      = inl (TypeError (Event.missing_msg cls
                          (_fieldset cls ∖ PyDict.frozenset fields)))
      /\ forall extraneous : gset string,
           Event.__init__ cls fields
           <> inl (TypeError (Event.unexpected_msg cls extraneous))).
Proof.
  split.
  - intros Hne [_ Hok]%init_ok_iff. rewrite Hok in Hne.
    destruct Hne as [Hne|Hne]; apply Hne; set_solver.
  - intros Hself Hm Hx. rewrite init_missing by done. split; [done|].
    intros extraneous [= Heq]. by apply missing_msg_not_unexpected in Heq.
Qed.

End construction.

(** ** Messages, serialization and representation *)

Section serialization.
Context {V P Message : Type}.
Context (value : Message -> P).
Context (serialization_loads :
           option string -> P -> result (dict (pyobj V Message))).
Context (serialization_dumps :
           option string + pyobj V Message ->
           dict (pyobj V Message) + pyobj V Message -> result P).
Context (repr : pyobj V Message -> string).
Context (call_value : pyobj V Message -> result (pyobj V Message)).
Context (dict_of_call : pyobj V Message -> result (pyobj V Message)).
Context (items_over :
           pyobj V Message -> dict (pyobj V Message) ->
           result (list (string * pyobj V Message))).
Implicit Types (cls : event_type) (fields kwargs : dict (pyobj V Message)).

Lemma call_kwargs_keys kwargs more fields (k : string) :
  Event.call_kwargs kwargs more = inr fields ->
  k ∈ PyDict.keys kwargs -> k ∈ PyDict.keys fields.
Proof.
  revert kwargs. induction more as [|[k' v'] more IH]; intros kwargs; cbn.
  - by intros [= ->].
  - case_decide; [done|]. intros Hcall Hin. apply (IH _ Hcall).
    unfold PyDict.keys. rewrite fmap_app, elem_of_app. by left.
Qed.

Lemma call_kwargs_fresh kwargs more :
  NoDup (PyDict.keys (kwargs ++ more)) ->
  Event.call_kwargs kwargs more = inr (kwargs ++ more).
Proof.
  unfold PyDict.keys. revert kwargs.
  induction more as [|[k v] more IH]; intros kwargs Hnd; cbn.
  - by rewrite app_nil_r.
  - assert (Hk : k ∉ PyDict.keys kwargs).
    { rewrite fmap_app in Hnd. apply NoDup_app in Hnd as (_ & Hdisj & _).
      intros Hin. apply (Hdisj k Hin). rewrite fmap_cons. apply list_elem_of_here. }
    rewrite decide_False by done.
    rewrite (cons_middle (k, v) kwargs more), (assoc_L (++)).
    apply IH. by rewrite <- (assoc_L (++)), <- cons_middle.
Qed.

(** A class whose schema has no field [req] cannot be built from a
    message: the request context is passed as the keyword [req], which
    validation rejects. *)
Lemma from_message_never_ok cls (key : V) (topic : string) (partition : Z)
    (message : Message) :
  "req" ∉ _fieldset cls ->
  ~ is_ok (Event.from_message value serialization_loads cls key topic
             partition message).
Proof.
  intros Hreq. unfold Event.from_message, Event.loads.
  destruct (serialization_loads _ _) as [e|decoded]; [by intros []|]. cbn.
  destruct (Event.call_kwargs _ decoded) as [e|fields] eqn:Hcall;
    [by intros []|]. cbn.
  intros [_ Hok]%init_ok_iff. apply Hreq. rewrite <- Hok.
  apply elem_of_frozenset, (call_kwargs_keys _ _ _ _ Hcall).
  apply list_elem_of_here.
Qed.

Lemma asitems_of_exact (d : dict (pyobj V Message)) (names : list string) :
  (forall name, name ∈ names -> name ∈ PyDict.keys d) ->
  exists items,
    Event._asitems_of d names = inr items
    /\ PyDict.keys items = names
    /\ forall name, name ∈ names -> PyDict.get name items = PyDict.get name d.
Proof.
  induction names as [|name names IH]; intros Hin.
  - exists []. split_and!; [done..|]. intros name Hname.
    by apply elem_of_nil in Hname.
  - destruct IH as (items & Hitems & Hkeys & Hget).
    { intros name' Hname'. apply Hin. by apply list_elem_of_further. }
    destruct (PyDict.get name d) as [v|] eqn:Hv.
    2:{ apply get_None in Hv. destruct Hv. apply Hin, list_elem_of_here. }
    exists ((name, v) :: items). cbn. rewrite Hv, Hitems. cbn.
    split_and!; [done| |].
    + unfold PyDict.keys in *. cbn. by f_equal.
    + intros name' Hname'. destruct (decide (name' = name)) as [->|Hne]; [done|].
      apply Hget. by apply elem_of_cons in Hname' as [?|?].
Qed.

(** A plain schema keeps the reserved names out of the keyword arguments
    that construction accepts. *)
Lemma plain_schema_keys cls fields (name : string) :
  Event.plain_schema cls ->
  PyDict.frozenset fields = _fieldset cls ->
  name ∈ Event.reserved_names ->
  name ∉ PyDict.keys fields.
Proof.
  intros Hplain Hkeys Hname Hin. unfold Event.plain_schema in Hplain.
  rewrite Forall_forall in Hplain. apply (Hplain name Hname).
  rewrite <- Hkeys. by apply elem_of_frozenset.
Qed.

(** On an instance that shadows none of the attributes, the methods are
    those of the class. *)
Lemma asitems_unshadowed (self : event V Message) :
  "_fields" ∉ PyDict.keys (__dict__ self) ->
  Event._asitems items_over self
  = Event._asitems_of (__dict__ self) (PyDict.keys (_fields (type_ self))).
Proof.
  intros Hf%get_None. unfold Event._asitems. by rewrite Hf.
Qed.

Lemma asdict_unshadowed (self : event V Message) :
  "_asitems" ∉ PyDict.keys (__dict__ self) ->
  Event._asdict dict_of_call items_over self
  = (items ← Event._asitems items_over self;
     inr (inl (PyDict.of_items items))).
Proof.
  intros Hf%get_None. unfold Event._asdict. by rewrite Hf.
Qed.

Lemma dumps_unshadowed (self : event V Message) :
  "serializer" ∉ PyDict.keys (__dict__ self) ->
  "_asdict" ∉ PyDict.keys (__dict__ self) ->
  Event.dumps serialization_dumps call_value dict_of_call items_over self
  = (mapping ← Event._asdict dict_of_call items_over self;
     serialization_dumps (inl (serializer (type_ self))) mapping).
Proof.
  intros Hs%get_None Ha%get_None. unfold Event.dumps. by rewrite Hs, Ha.
Qed.

(** C9, as the code has it.  The representation of a record just built is
    the type name followed by [name=repr(value)] for each field, separated
    by a comma and a space, in the order in which the fields were given to
    the constructor. *)
Theorem repr_in_construction_order cls fields record :
  NoDup (PyDict.keys fields) ->
  Event.__init__ cls fields = inr record ->
  Event.__repr__ repr record
  = "<" +:+ __name__ (cls_object cls) +:+ ": "
      +:+ join ", " (map (fun kv => kv.1 +:+ "=" +:+ repr kv.2) fields)
      +:+ ">".
Proof.
  intros Hnd Hinit. apply init_inr_inv in Hinit as (_ & _ & ->).
  unfold Event.__repr__, _kvrepr. cbn.
  by rewrite (update_fresh []).
Qed.

End serialization.

(** ** Join building and bound events *)

(** C6, as the code has it.  [a & b] is [a.join(b)]; it never fails,
    prints one line naming the two fields, left operand first, and returns
    [None]: no join expression is built, and the value returned does not
    depend on the order of the operands. *)
Theorem join_prints_and_returns_None (repr_str : string -> string)
    (a b : FieldDescriptor.t) (stdout : list string) :
  FieldDescriptor.__and__ repr_str a b stdout
    = FieldDescriptor.join repr_str a b stdout
  /\ FieldDescriptor.join repr_str a b stdout
     = (PyNone,
        stdout ++ ["join " +:+ repr_str (FieldDescriptor.field a)
                     +:+ " with " +:+ repr_str (FieldDescriptor.field b)])
  /\ (FieldDescriptor.__and__ repr_str a b stdout).1
     = (FieldDescriptor.__and__ repr_str b a stdout).1.
Proof. done. Qed.

(** ** The records of the examples *)

Section examples.
Import Example.

(** C1.  [Order] declares [amount] and [currency]; a message whose payload
    has exactly these fields is rejected by [from_message], because the
    request context reaches the constructor as one more field, [req]; the
    same mapping given to the constructor directly is accepted. *)
Theorem from_message_rejects_request :
  from_message Order (AStr "k1") "orders" 0
    [("amount", AInt 100); ("currency", AStr "USD")]
  = inl (TypeError "Order got unexpected arguments: req")
  /\ serialization_loads (Some "json")
       [("amount", AInt 100); ("currency", AStr "USD")] = inr usd_100
  /\ construct Order usd_100 = inr (mk_event Order usd_100).
Proof. split_and!; vm_compute; reflexivity. Qed.

Lemma construct_validation_witness :
  construct Order usd_100_reordered = inr (mk_event Order usd_100_reordered).
Proof.
  destruct (construct_validation Order usd_100_reordered) as (_ & _ & _ & Hok).
  - compute_done.
  - compute_done.
  - apply Hok. compute_done.
Defined.

(** C2 as stated fails: with [amount] given, [currency] missing and the
    unknown [zz] given, the keys outside the schema are not empty, yet the
    error is the missing-arguments one; and the one keyword [self] given
    to a class whose only field is [self] has the keys of the schema, yet
    the call is refused. *)
Lemma construct_unexpected_counterexample :
  PyDict.frozenset amount_and_zz ∖ _fieldset Order ≠ ∅
  /\ sorted (PyDict.frozenset amount_and_zz ∖ _fieldset Order) = ["zz"]
  /\ construct Order amount_and_zz
     = inl (TypeError "Order missing required arguments: currency")
  /\ construct Order amount_and_zz
     <> inl (TypeError "Order got unexpected arguments: zz")
  /\ PyDict.frozenset self_1 = _fieldset WithSelf
  /\ construct WithSelf self_1 = inl (MultipleValues "self").
Proof.
  split_and!.
  - compute_done.
  - vm_compute; reflexivity.
  - vm_compute; reflexivity.
  - vm_compute. discriminate.
  - compute_done.
  - vm_compute; reflexivity.
Qed.

Lemma missing_reported_before_unexpected_witness :
  ~ is_ok (construct Derived a_and_x)
  /\ construct Derived a_and_x
     = inl (TypeError (Event.missing_msg Derived
                         (_fieldset Derived ∖ PyDict.frozenset a_and_x))).
Proof.
  destruct (missing_reported_before_unexpected Derived a_and_x)
    as [Hfail Hboth].
  split.
  - apply Hfail. left. compute_done.
  - apply Hboth; compute_done.
Defined.

(** C5 as stated fails: with [b] and [c] missing and the unknown [x]
    given, only the missing fields are reported; and with [currency]
    missing and the keyword [self] given, the call is refused before
    either check. *)
Lemma both_kinds_counterexample :
  _fieldset Derived ∖ PyDict.frozenset a_and_x ≠ ∅
  /\ PyDict.frozenset a_and_x ∖ _fieldset Derived ≠ ∅
  /\ construct Derived a_and_x
     = inl (TypeError "Derived missing required arguments: b, c")
  /\ construct Derived a_and_x
     <> inl (TypeError (Event.unexpected_msg Derived
                          (PyDict.frozenset a_and_x ∖ _fieldset Derived)))
  /\ _fieldset Order ∖ PyDict.frozenset amount_and_self ≠ ∅
  /\ PyDict.frozenset amount_and_self ∖ _fieldset Order ≠ ∅
  /\ construct Order amount_and_self = inl (MultipleValues "self").
Proof.
  split_and!.
  - compute_done.
  - compute_done.
  - vm_compute; reflexivity.
  - vm_compute. discriminate.
  - compute_done.
  - compute_done.
  - vm_compute; reflexivity.
Qed.

Lemma repr_in_construction_order_witness :
  Event.__repr__ repr (mk_event Order usd_100_reordered)
  = "<Order: currency='USD', amount=100>".
Proof.
  rewrite (repr_in_construction_order repr Order usd_100_reordered).
  - vm_compute; reflexivity.
  - compute_done.
  - vm_compute; reflexivity.
Defined.

(** C9 as stated fails: [Order(currency='USD', amount=100)] is shown with
    [currency] first, not in the schema order [amount], [currency]. *)
Lemma repr_schema_order_counterexample :
  construct Order usd_100_reordered = inr (mk_event Order usd_100_reordered)
  /\ Event.__repr__ repr (mk_event Order usd_100_reordered)
     = "<Order: currency='USD', amount=100>"
  /\ Event.repr_in_schema_order repr (mk_event Order usd_100_reordered)
     = "<Order: amount=100, currency='USD'>"
  /\ Event.__repr__ repr (mk_event Order usd_100_reordered)
     <> Event.repr_in_schema_order repr (mk_event Order usd_100_reordered).
Proof.
  split_and!; [vm_compute; reflexivity..|]. vm_compute. discriminate.
Qed.

(** C6 as stated fails: [x & y] prints, returns [None], and so does
    [y & x]. *)
Lemma join_counterexample :
  FieldDescriptor.__and__ repr_str x_field y_field []
    = (PyNone, ["join 'x' with 'y'"])
  /\ (FieldDescriptor.__and__ repr_str x_field y_field []).2 <> []
  /\ (FieldDescriptor.__and__ repr_str x_field y_field []).1
     = (FieldDescriptor.__and__ repr_str y_field x_field []).1.
Proof. split_and!; [vm_compute; reflexivity|discriminate|reflexivity]. Qed.

(** C8.  [Derived] has the schema [a], [b], [c], [a] coming from [Base];
    binding [Derived] makes descriptors for [b] and [c] only, those that
    [Derived] annotates itself. *)
Theorem bound_event_misses_inherited_fields :
  PyDict.keys (_fields Derived) = ["a"; "b"; "c"]
  /\ BoundEvent.__init__ Derived ()
     = inr [("event", BoundEvent.AttrEvent Derived);
            ("obj", BoundEvent.AttrObj ());
            ("b", BoundEvent.AttrField (FieldDescriptor.__init__ "b"));
            ("c", BoundEvent.AttrField (FieldDescriptor.__init__ "c"))]
  /\ (PyDict.keys ∘ BoundEvent.descriptors <$> BoundEvent.__init__ Derived ())
     = inr ["b"; "c"].
Proof. split_and!; vm_compute; reflexivity. Qed.

(** The codec of the examples decodes what it encodes. *)
Lemma example_codec_roundtrip (m : dict obj) :
  Forall (fun kv => exists v, kv.2 = Val v) m ->
  exists p, serialization_dumps (inl (Some "json")) (inl m) = inr p
            /\ serialization_loads (Some "json") p = inr m.
Proof.
  unfold serialization_dumps, serialization_loads. cbn [serializer_name].
  induction 1 as [|[k o] m [v Hv] _ (p & Hp & Hl)].
  - by exists [].
  - cbn in Hv. subst o. exists ((k, v) :: p). split.
    + change (mapM encode_item ((k, Val v) :: m))
        with (y ← encode_item (k, Val v);
              l ← mapM encode_item m; mret (y :: l)).
      by rewrite Hp.
    + injection Hl as Hl. cbn. by rewrite Hl.
Qed.

Lemma get_elem_of {A} (d : dict A) (k : string) (v : A) :
  (k, v) ∈ d -> is_Some (PyDict.get k d).
Proof.
  intros Hin. apply get_is_Some. unfold PyDict.keys.
  apply list_elem_of_fmap. by exists (k, v).
Qed.

Lemma get_elem_of_NoDup {A} (d : dict A) (k : string) (v : A) :
  NoDup (PyDict.keys d) -> (k, v) ∈ d -> PyDict.get k d = Some v.
Proof.
  unfold PyDict.keys. induction d as [|[k' v'] d IH]; cbn.
  - by intros _ ?%elem_of_nil.
  - intros [Hk' Hnd]%NoDup_cons [[= -> ->]|Hin]%elem_of_cons.
    + by rewrite decide_True.
    + rewrite decide_False; [by apply IH|].
      intros ->. apply Hk', list_elem_of_fmap. by exists (k', v).
Qed.

(** C4.  [Ser] is declared with the serializer [json] and has a field
    named [serializer].  [Ser(serializer='avro', n=1)] is built, but
    [dumps] hands the codec the value of the field, [avro], which is not
    registered, where [loads] uses the serializer of the class: the record
    is not serialized, although the codec of the class encodes its
    mapping. *)
Theorem roundtrip_breaks_on_field_named_serializer :
  PyDict.frozenset avro_1 = _fieldset Ser
  /\ construct Ser avro_1 = inr (mk_event Ser avro_1)
  /\ serializer Ser = Some "json"
  /\ Event._asdict dict_of_call items_over (mk_event Ser avro_1)
     = inr (inl avro_1)
  /\ dumps (mk_event Ser avro_1)
     = serialization_dumps (inr (Val (AStr "avro"))) (inl avro_1)
  /\ dumps (mk_event Ser avro_1)
     = inl (SerializationError "unknown serializer")
  /\ serialization_dumps (inl (serializer Ser)) (inl avro_1)
     = inr [("serializer", AStr "avro"); ("n", AInt 1)].
Proof. split_and!; try compute_done; vm_compute; reflexivity. Qed.

End examples.

(** * Further properties of the code *)

(** ** Schemas along the class hierarchy *)

Section schema_more.
Implicit Types (c p m : pyclass) (mro ancestors : list pyclass).

Lemma get_app {A} (k : string) (d1 d2 : dict A) :
  PyDict.get k (d1 ++ d2)
  = match PyDict.get k d1 with
    | Some v => Some v
    | None => PyDict.get k d2
    end.
Proof.
  induction d1 as [|[k1 v1] d1 IH]; cbn; [done|].
  by destruct (decide (k = k1)).
Qed.

Lemma get_reverse_NoDup {A} (k : string) (d : dict A) :
  NoDup (PyDict.keys d) -> PyDict.get k (reverse d) = PyDict.get k d.
Proof.
  unfold PyDict.keys. induction d as [|[k' v'] d IH]; [done|].
  rewrite fmap_cons, NoDup_cons. cbn [fst]. intros [Hk' Hnd].
  rewrite reverse_cons, get_app, (IH Hnd). cbn.
  destruct (decide (k = k')) as [->|Hne].
  - by rewrite (proj2 (get_None k' d) Hk').
  - by destruct (PyDict.get k d).
Qed.

Lemma mro_step_transparent (st : dict pytype * bool) m :
  m <> ClsEvent ->
  __annotations__ m = None \/ __annotations__ m = Some [] ->
  Event.mro_step st m = st.
Proof.
  intros Hm Hann. destruct st as [fields [|]]; cbn.
  - by destruct Hann as [-> | ->].
  - by rewrite is_Event_false.
Qed.

Lemma foldl_mro_step_flag mro (st : dict pytype * bool) :
  ClsEvent ∈ mro -> (foldl Event.mro_step st mro).2 = true.
Proof.
  revert st. induction mro as [|c mro IH]; intros [fields flag] Hin.
  - by apply elem_of_nil in Hin.
  - cbn [foldl]. destruct flag.
    + assert (Hstep : Event.mro_step (fields, true) c
                      = (Event.merge fields c, true)).
      { unfold Event.mro_step, Event.merge. by destruct (__annotations__ c). }
      by rewrite Hstep, foldl_mro_step_wanted.
    + apply elem_of_cons in Hin as [<-|Hin].
      * cbn. by rewrite foldl_mro_step_wanted.
      * by apply IH.
Qed.

Lemma mro_fields_cons c mro :
  ClsEvent ∈ mro ->
  Event.mro_fields (c :: mro) = Event.merge (Event.mro_fields mro) c.
Proof.
  intros Hin. unfold Event.mro_fields. rewrite reverse_cons, foldl_app.
  pose proof (foldl_mro_step_flag (reverse mro) ([], false)) as Hflag.
  destruct (foldl Event.mro_step ([], false) (reverse mro)) as [fields flag].
  cbn in Hflag. rewrite Hflag by by apply elem_of_reverse.
  cbn. unfold Event.merge. by destruct (__annotations__ c).
Qed.

(** X1. The schema of a declared class has each field name once, and
    [_fieldset] holds exactly the names that [_fields] maps to a type. *)
Theorem schema_names_unique c ancestors ser :
  NoDup (PyDict.keys (_fields (Event.__init_subclass__ c ancestors ser)))
  /\ forall name : string,
       name ∈ _fieldset (Event.__init_subclass__ c ancestors ser)
       <-> is_Some (PyDict.get name
                      (_fields (Event.__init_subclass__ c ancestors ser))).
Proof.
  split; [apply NoDup_keys_fields|]. intros name.
  by rewrite fieldset_fields, elem_of_frozenset, get_is_Some.
Qed.

(** X2. Declaring [c] under a class whose method resolution order is
    [p :: ancestors] extends the schema of [p]: the fields of [p] keep
    their places at the front, a field that [c] annotates takes the type
    [c] gives it, and every other field keeps the type it had. *)
Theorem subclass_extends_schema c p ancestors ser ser'
    (ann : dict pytype) :
  ClsEvent ∈ p :: ancestors ->
  __annotations__ c = Some ann ->
  NoDup (PyDict.keys ann) ->
  PyDict.keys (_fields (Event.__init_subclass__ p ancestors ser'))
    `prefix_of`
    PyDict.keys (_fields (Event.__init_subclass__ c (p :: ancestors) ser))
  /\ forall name : string,
       PyDict.get name
         (_fields (Event.__init_subclass__ c (p :: ancestors) ser))
       = match PyDict.get name ann with
         | Some t => Some t
         | None =>
             PyDict.get name
               (_fields (Event.__init_subclass__ p ancestors ser'))
         end.
Proof.
  intros Hin Hann Hnd. cbn [Event.__init_subclass__ _fields].
  rewrite (mro_fields_cons c (p :: ancestors) Hin).
  unfold Event.merge. rewrite Hann. split.
  - apply keys_update_prefix.
  - intros name. by rewrite get_update, get_reverse_NoDup.
Qed.

Lemma subclass_extends_schema_witness :
  PyDict.keys (_fields Example.Base)
    `prefix_of` PyDict.keys (_fields Example.Derived)
  /\ PyDict.get "b" (_fields Example.Derived) = Some "str"
  /\ PyDict.get "a" (_fields Example.Derived) = Some "int".
Proof.
  destruct (subclass_extends_schema Example.Derived_cls Example.Base_cls
              [ClsEvent; ClsObject] None (Some "json")
              [("b", "str"); ("c", "float")]) as [Hprefix Hget].
  - apply list_elem_of_further, list_elem_of_here.
  - reflexivity.
  - compute_done.
  - split_and!; [exact Hprefix | exact (Hget "b") | exact (Hget "a")].
Defined.

(** X3. A class other than [Event] whose [__annotations__] is missing or
    empty leaves the schema as it is, wherever it stands in the method
    resolution order. *)
Theorem class_without_annotations_is_transparent m (l1 l2 : list pyclass) :
  m <> ClsEvent ->
  __annotations__ m = None \/ __annotations__ m = Some [] ->
  Event.mro_fields (l1 ++ m :: l2) = Event.mro_fields (l1 ++ l2).
Proof.
  intros Hm Hann. unfold Event.mro_fields.
  rewrite !reverse_app, reverse_cons, <- (assoc_L (++)), !foldl_app.
  cbn [foldl]. by rewrite mro_step_transparent.
Qed.

Lemma class_without_annotations_is_transparent_witness :
  Event.mro_fields
    ([ClsUser "Plain" (Some []) None] ++ Example.Mixin_cls
       :: [ClsEvent; ClsObject])
  = Event.mro_fields
      ([ClsUser "Plain" (Some []) None] ++ [ClsEvent; ClsObject]).
Proof.
  apply class_without_annotations_is_transparent.
  - discriminate.
  - by right.
Defined.

End schema_more.

(** ** Records right after construction *)

Lemma frozenset_empty_iff {A} (fields : dict A) : PyDict.frozenset fields = ∅ <-> fields = [].
Proof.
  split; [|by intros ->]. destruct fields as [|[k v] fields]; [done|].
  intros Hempty. assert (Hk : k ∈ PyDict.frozenset ((k, v) :: fields)).
  { apply elem_of_frozenset, list_elem_of_here. }
  rewrite Hempty in Hk. by apply not_elem_of_empty in Hk.
Qed.

Lemma foldl_merge_transparent (acc : dict pytype) (l : list pyclass) :
  (forall d, d ∈ l -> __annotations__ d = None \/ __annotations__ d = Some []) ->
  foldl Event.merge acc l = acc.
Proof.
  induction l as [|d l IH]; intros Hl; [done|]. cbn [foldl].
  assert (Hd : Event.merge acc d = acc).
  { unfold Event.merge.
    by destruct (Hl d (list_elem_of_here _ _)) as [-> | ->]. }
  rewrite Hd. apply IH. intros d' Hd'. by apply Hl, list_elem_of_further.
Qed.

Lemma sorted_singleton (x : string) : sorted {[x]} = [x].
Proof. unfold sorted. by rewrite elements_singleton. Qed.

(** X4. When no class below [Event] annotates anything, the schema is
    empty, and the only construction that succeeds is the one with no
    field at all. *)
Theorem empty_schema_accepts_no_field {V Message : Type} (c : pyclass)
    ancestors below above ser :
  c :: ancestors = below ++ ClsEvent :: above ->
  ClsEvent ∉ above ->
  (forall d, d ∈ below ->
     __annotations__ d = None \/ __annotations__ d = Some []) ->
  _fields (Event.__init_subclass__ c ancestors ser) = []
  /\ forall fields : dict (pyobj V Message),
       is_ok (Event.__init__ (Event.__init_subclass__ c ancestors ser) fields)
       <-> fields = [].
Proof.
  intros Hmro Habove Hbelow.
  assert (Hfields : _fields (Event.__init_subclass__ c ancestors ser) = []).
  { cbn [Event.__init_subclass__ _fields]. rewrite Hmro.
    rewrite mro_fields_below by done. apply foldl_merge_transparent.
    intros d Hd. by apply Hbelow, elem_of_reverse. }
  split; [done|]. intros fields.
  rewrite init_ok_iff, fieldset_fields, Hfields. split.
  - intros [_ Hempty]. by apply frozenset_empty_iff.
  - intros ->. split; [apply not_elem_of_nil | done].
Qed.

Lemma empty_schema_accepts_no_field_witness :
  _fields Example.Plain = []
  /\ (is_ok (Example.construct Example.Plain Example.usd_100)
      <-> Example.usd_100 = []).
Proof.
  destruct (empty_schema_accepts_no_field
              (V := Example.atom) (Message := Example.payload)
              (ClsUser "Plain" (Some []) None)
              [Example.Mixin_cls; ClsEvent; ClsObject]
              [ClsUser "Plain" (Some []) None; Example.Mixin_cls]
              [ClsObject] None) as [Hfields Hok].
  - reflexivity.
  - apply not_elem_of_cons; split; [discriminate | apply not_elem_of_nil].
  - intros d [->|[->|Hd%elem_of_nil]%elem_of_cons]%elem_of_cons;
      [by right | by right | done].
  - split; [exact Hfields | exact (Hok Example.usd_100)].
Defined.

(** X5. A record that construction returns has the type it was asked
    for, and its [__dict__] holds every field of the schema and nothing
    else, each key once. *)
Theorem constructed_record_matches_schema {V Message : Type} (cls : event_type)
    (fields : dict (pyobj V Message)) record :
  Event.__init__ cls fields = inr record ->
  type_ record = cls
  /\ PyDict.frozenset (__dict__ record) = _fieldset cls
  /\ NoDup (PyDict.keys (__dict__ record)).
Proof.
  intros Hinit. apply init_inr_inv in Hinit as (_ & Hok & ->).
  cbn [__dict__ type_]. split_and!; [done| |].
  - rewrite <- Hok. apply set_eq. intros k.
    rewrite !elem_of_frozenset, elem_of_keys_update.
    split; [intros [Hnil|?]; [by apply elem_of_nil in Hnil | done] | by right].
  - apply NoDup_keys_update, NoDup_nil_2.
Qed.

Lemma constructed_record_matches_schema_witness :
  type_ (mk_event Example.Order Example.usd_100_reordered) = Example.Order
  /\ PyDict.frozenset (__dict__ (mk_event Example.Order Example.usd_100_reordered))
     = _fieldset Example.Order
  /\ NoDup (PyDict.keys
              (__dict__ (mk_event Example.Order Example.usd_100_reordered))).
Proof.
  apply (constructed_record_matches_schema Example.Order
           Example.usd_100_reordered).
  vm_compute; reflexivity.
Defined.

(** X6. Leaving out exactly one field [f] of the schema, with no keyword
    named [self], raises the missing-arguments [TypeError] that names [f]
    alone. *)
Theorem one_missing_field {V Message : Type} (cls : event_type)
    (fields : dict (pyobj V Message)) (f : string) :
  "self" ∉ PyDict.keys fields ->
  f ∈ _fieldset cls ->
  PyDict.frozenset fields = _fieldset cls ∖ {[f]} ->
  Event.__init__ cls fields
  = inl (TypeError (__name__ (cls_object cls)
                      +:+ " missing required arguments: " +:+ f)).
Proof.
  intros Hself Hf Hkeys.
  assert (Hmissing : _fieldset cls ∖ PyDict.frozenset fields = {[f]}).
  { rewrite Hkeys. apply set_eq. intros x.
    rewrite !elem_of_difference, elem_of_singleton.
    split; [|by intros ->; split; [|intros [_ []]]].
    intros [Hx Hnot]. destruct (decide (x = f)); [done|].
    destruct Hnot. by split. }
  rewrite init_missing; [|done|].
  - unfold Event.missing_msg. by rewrite Hmissing, sorted_singleton.
  - rewrite Hmissing. intros Hempty.
    assert (Hin : f ∈ ({[f]} : gset string)) by by apply elem_of_singleton.
    rewrite Hempty in Hin. by apply not_elem_of_empty in Hin.
Qed.

Lemma one_missing_field_witness :
  Example.construct Example.Order Example.amount_only
  = inl (TypeError "Order missing required arguments: currency").
Proof.
  apply (one_missing_field Example.Order Example.amount_only "currency");
    compute_done.
Defined.

(** X7. Giving every field of the schema and exactly one unknown name
    [x], with no keyword named [self], raises the unexpected-arguments
    [TypeError] that names [x] alone. *)
Theorem one_unexpected_field {V Message : Type} (cls : event_type)
    (fields : dict (pyobj V Message)) (x : string) :
  "self" ∉ PyDict.keys fields ->
  x ∉ _fieldset cls ->
  PyDict.frozenset fields = _fieldset cls ∪ {[x]} ->
  Event.__init__ cls fields
  = inl (TypeError (__name__ (cls_object cls)
                      +:+ " got unexpected arguments: " +:+ x)).
Proof.
  intros Hself Hx Hkeys.
  assert (Hmissing : _fieldset cls ∖ PyDict.frozenset fields = ∅).
  { rewrite Hkeys. apply set_eq. intros y.
    rewrite elem_of_difference, elem_of_union.
    split; [intros [Hy []]; by left | by intros ?%not_elem_of_empty]. }
  assert (Hextra : PyDict.frozenset fields ∖ _fieldset cls = {[x]}).
  { rewrite Hkeys. apply set_eq. intros y.
    rewrite elem_of_difference, elem_of_union, elem_of_singleton.
    split; [by intros [[?|?] ?] | intros ->; by split; [right|]]. }
  rewrite init_unexpected; [|done..|].
  - unfold Event.unexpected_msg. by rewrite Hextra, sorted_singleton.
  - rewrite Hextra. intros Hempty.
    assert (Hin : x ∈ ({[x]} : gset string)) by by apply elem_of_singleton.
    rewrite Hempty in Hin. by apply not_elem_of_empty in Hin.
Qed.

Lemma one_unexpected_field_witness :
  Example.construct Example.Order Example.usd_100_zz
  = inl (TypeError "Order got unexpected arguments: zz").
Proof.
  apply (one_unexpected_field Example.Order Example.usd_100_zz "zz");
    compute_done.
Defined.

(** X8. A record built by the constructor of a class whose schema has no
    field [req] carries no request of its own: [self.req] is the class
    default, [None]. *)
Theorem constructed_record_has_no_request {V Message : Type} (cls : event_type)
    (fields : dict (pyobj V Message)) record :
  "req" ∉ _fieldset cls ->
  Event.__init__ cls fields = inr record ->
  Event.req record = None.
Proof.
  intros Hreq Hinit. apply init_inr_inv in Hinit as (_ & Hok & ->).
  unfold Event.req. cbn [__dict__]. apply get_None.
  rewrite elem_of_keys_update. intros [Hnil|Hin]; [by apply elem_of_nil in Hnil|].
  apply Hreq. rewrite <- Hok. by apply elem_of_frozenset.
Qed.

Lemma constructed_record_has_no_request_witness :
  Event.req (mk_event Example.Order Example.usd_100) = None.
Proof.
  apply (constructed_record_has_no_request Example.Order Example.usd_100).
  - compute_done.
  - vm_compute; reflexivity.
Defined.


(** ** Serialization and messages *)

Section serialization_more.
Context {V P Message : Type}.
Context (value : Message -> P).
Context (serialization_loads :
           option string -> P -> result (dict (pyobj V Message))).
Context (serialization_dumps :
           option string + pyobj V Message ->
           dict (pyobj V Message) + pyobj V Message -> result P).
Context (call_value : pyobj V Message -> result (pyobj V Message)).
Context (dict_of_call : pyobj V Message -> result (pyobj V Message)).
Context (items_over :
           pyobj V Message -> dict (pyobj V Message) ->
           result (list (string * pyobj V Message))).
Implicit Types (cls : event_type) (fields kwargs : dict (pyobj V Message)).

Lemma call_kwargs_inv kwargs more fields :
  Event.call_kwargs kwargs more = inr fields ->
  fields = kwargs ++ more
  /\ forall k : string, k ∈ PyDict.keys more -> k ∉ PyDict.keys kwargs.
Proof.
  revert kwargs. induction more as [|[k v] more IH]; intros kwargs; cbn.
  - intros [= <-]. rewrite app_nil_r. split; [done|].
    by intros k ?%elem_of_nil.
  - case_decide as Hk; [done|]. intros [-> Hdisj]%IH.
    rewrite <- (assoc_L (++)). split; [done|].
    intros k' [->|Hk']%elem_of_cons; [done|].
    intros Hin. apply (Hdisj k' Hk'). unfold PyDict.keys.
    rewrite fmap_app, elem_of_app. by left.
Qed.

Lemma call_kwargs_duplicate kwargs more (k0 : string) :
  NoDup (PyDict.keys more) ->
  k0 ∈ PyDict.keys more ->
  k0 ∈ PyDict.keys kwargs ->
  (forall k, k ∈ PyDict.keys more -> k ∈ PyDict.keys kwargs -> k = k0) ->
  Event.call_kwargs kwargs more = inl (DuplicateKeyword k0).
Proof.
  unfold PyDict.keys. revert kwargs.
  induction more as [|[k v] more IH]; intros kwargs Hnd Hmore Hkw Honly.
  - by apply elem_of_nil in Hmore.
  - rewrite fmap_cons in Hnd, Hmore, Honly. cbn [fst] in *.
    apply NoDup_cons in Hnd as [Hk Hnd]. cbn.
    case_decide as Hin.
    + by rewrite (Honly k (list_elem_of_here _ _) Hin).
    + apply elem_of_cons in Hmore as [->|Hmore]; [done|].
      apply IH; [done..| |].
      * rewrite fmap_app, elem_of_app. by left.
      * intros k' Hk' Hin'. rewrite fmap_app, elem_of_app in Hin'.
        destruct Hin' as [Hin'|Hin'].
        -- apply Honly; [by apply list_elem_of_further | done].
        -- apply list_elem_of_singleton in Hin'. cbn in Hin'. by subst k'.
Qed.

Lemma asitems_of_missing (d : dict (pyobj V Message))
    (pre post : list string) (name : string) :
  (forall n, n ∈ pre -> n ∈ PyDict.keys d) ->
  name ∉ PyDict.keys d ->
  Event._asitems_of d (pre ++ name :: post) = inl (KeyError name).
Proof.
  intros Hpre Hname. induction pre as [|n pre IH]; cbn.
  - by rewrite (proj2 (get_None name d) Hname).
  - destruct (PyDict.get n d) as [v|] eqn:Hn.
    + rewrite IH; [done|]. intros n' Hn'. by apply Hpre, list_elem_of_further.
    + apply get_None in Hn. destruct Hn. apply Hpre, list_elem_of_here.
Qed.

Lemma asitems_of_constructed cls fields :
  NoDup (PyDict.keys (_fields cls)) ->
  _fieldset cls = PyDict.frozenset (_fields cls) ->
  PyDict.frozenset fields = _fieldset cls ->
  exists items,
    Event._asitems_of fields (PyDict.keys (_fields cls)) = inr items
    /\ PyDict.keys items = PyDict.keys (_fields cls)
    /\ PyDict.of_items items = items
    /\ PyDict.equal items fields.
Proof.
  intros Hwf Hfs Hkeys.
  destruct (asitems_of_exact fields (PyDict.keys (_fields cls)))
    as (items & Hitems & Hikeys & Hget).
  { intros name Hname. apply elem_of_frozenset. rewrite Hkeys, Hfs.
    by apply elem_of_frozenset. }
  exists items. split_and!; [done..| |].
  - apply of_items_NoDup. by rewrite Hikeys.
  - intros k. destruct (decide (k ∈ PyDict.keys (_fields cls))) as [Hin|Hnin].
    + by apply Hget.
    + assert (Hnone : PyDict.get k items = None)
        by (apply get_None; by rewrite Hikeys).
      rewrite Hnone. symmetry. apply get_None.
      intros Hk%elem_of_frozenset. rewrite Hkeys, Hfs in Hk.
      by apply elem_of_frozenset in Hk.
Qed.

Lemma serializer_init_subclass (c : pyclass) ancestors ser :
  serializer (Event.__init_subclass__ c ancestors ser) = ser.
Proof. done. Qed.

(** The methods on a record of a plain schema, as built by the
    constructor from [fields]. *)
Lemma serialization_of_constructed cls fields :
  NoDup (PyDict.keys fields) ->
  NoDup (PyDict.keys (_fields cls)) ->
  _fieldset cls = PyDict.frozenset (_fields cls) ->
  Event.plain_schema cls ->
  PyDict.frozenset fields = _fieldset cls ->
  ("self" ∉ PyDict.keys fields)
  /\ exists items,
       Event._asitems items_over (mk_event cls fields) = inr items
       /\ Event._asdict dict_of_call items_over (mk_event cls fields)
          = inr (inl items)
       /\ PyDict.keys items = PyDict.keys (_fields cls)
       /\ NoDup (PyDict.keys items)
       /\ PyDict.equal items fields
       /\ Event.dumps serialization_dumps call_value dict_of_call items_over
            (mk_event cls fields)
          = serialization_dumps (inl (serializer cls)) (inl items).
Proof.
  intros Hnd Hwf Hfs Hplain Hkeys.
  assert (Hres : forall name, name ∈ Event.reserved_names ->
                              name ∉ PyDict.keys fields).
  { intros name Hname. by apply (plain_schema_keys cls). }
  assert (Hself : "self" ∉ PyDict.keys fields) by (apply Hres; compute_done).
  split; [done|].
  destruct (asitems_of_constructed cls fields Hwf Hfs Hkeys)
    as (items & Hitems & Hikeys & Hof & Heq).
  assert (Hasitems : Event._asitems items_over (mk_event cls fields)
                     = inr items).
  { rewrite asitems_unshadowed by (apply Hres; compute_done). done. }
  assert (Hasdict : Event._asdict dict_of_call items_over
                      (mk_event cls fields) = inr (inl items)).
  { rewrite asdict_unshadowed by (apply Hres; compute_done).
    rewrite Hasitems. cbn [mbind result_bind]. by rewrite Hof. }
  exists items. split_and!; [done..| |done|].
  - by rewrite Hikeys.
  - rewrite dumps_unshadowed by (apply Hres; compute_done).
    by rewrite Hasdict.
Qed.

(** X9. For a class whose schema has no reserved name, whatever the order
    in which the fields were given to the constructor, [_asitems] and
    [_asdict] list them in schema order with the values given, and [dumps]
    hands exactly this mapping to the codec, under the serializer of the
    class: it fails only if the codec does. *)
Theorem serialization_in_schema_order (c : pyclass) ancestors ser fields
    record :
  NoDup (PyDict.keys fields) ->
  Event.plain_schema (Event.__init_subclass__ c ancestors ser) ->
  Event.__init__ (Event.__init_subclass__ c ancestors ser) fields
    = inr record ->
  exists items,
    Event._asitems items_over record = inr items
    /\ Event._asdict dict_of_call items_over record = inr (inl items)
    /\ PyDict.keys items
       = PyDict.keys (_fields (Event.__init_subclass__ c ancestors ser))
    /\ PyDict.equal items fields
    /\ Event.dumps serialization_dumps call_value dict_of_call items_over
         record
       = serialization_dumps (inl ser) (inl items).
Proof.
  intros Hnd Hplain Hinit. apply init_inr_inv in Hinit as (_ & Hkeys & ->).
  rewrite (update_fresh [] fields Hnd). cbn [app].
  destruct (serialization_of_constructed _ fields Hnd
              (NoDup_keys_fields c ancestors ser)
              (fieldset_fields c ancestors ser) Hplain Hkeys)
    as (_ & items & Hitems & Hasdict & Hikeys & _ & Heq & Hdumps).
  exists items. rewrite serializer_init_subclass in Hdumps. done.
Qed.

(** X10. When an instance that shadows none of [_fields], [_asitems],
    [_asdict] and [dumps] has lost a schema field from its [__dict__],
    [_asitems], and with it [dumps], raises [KeyError] for the first such
    field in schema order, before the codec is called. *)
Theorem serialization_of_incomplete_instance (self : event V Message)
    (pre post : list string) (name : string) :
  "_fields" ∉ PyDict.keys (__dict__ self) ->
  "_asitems" ∉ PyDict.keys (__dict__ self) ->
  "_asdict" ∉ PyDict.keys (__dict__ self) ->
  "dumps" ∉ PyDict.keys (__dict__ self) ->
  PyDict.keys (_fields (type_ self)) = pre ++ name :: post ->
  (forall n, n ∈ pre -> n ∈ PyDict.keys (__dict__ self)) ->
  name ∉ PyDict.keys (__dict__ self) ->
  Event._asitems items_over self = inl (KeyError name)
  /\ Event.dumps serialization_dumps call_value dict_of_call items_over self
     = inl (KeyError name).
Proof.
  intros Hf Hi Hd _ Hschema Hpre Hname.
  assert (Hitems : Event._asitems items_over self = inl (KeyError name)).
  { rewrite asitems_unshadowed by done. rewrite Hschema.
    by apply asitems_of_missing. }
  split; [done|]. unfold Event.dumps.
  rewrite (proj2 (get_None "_asdict" (__dict__ self)) Hd).
  rewrite asdict_unshadowed by done. by rewrite Hitems.
Qed.

(** X12. [from_message] returns a record exactly when the schema of the
    class has a field [req], the decoded payload has neither a key [req]
    nor a key [self] and its keys are the other fields of the schema; the
    record then holds the request context built from the four arguments
    under [req], before the decoded fields. *)
Theorem from_message_ok_iff cls (key : V) (topic : string) (partition : Z)
    (message : Message) (record : event V Message) :
  (forall decoded,
     serialization_loads (serializer cls) (value message) = inr decoded ->
     NoDup (PyDict.keys decoded)) ->
  Event.from_message value serialization_loads cls key topic partition
    message = inr record
  <-> exists decoded,
        serialization_loads (serializer cls) (value message) = inr decoded
        /\ ("req" ∉ PyDict.keys decoded)
        /\ ("self" ∉ PyDict.keys decoded)
        /\ ({["req"]} ∪ PyDict.frozenset decoded = _fieldset cls)
        /\ record
           = mk_event cls
               (("req", Req (mk_Request key topic partition message))
                  :: decoded).
Proof.
  intros Hdict. unfold Event.from_message, Event.loads.
  destruct (serialization_loads (serializer cls) (value message))
    as [e|decoded] eqn:Hloads; cbn.
  { split; [done | by intros (? & [=] & _)]. }
  specialize (Hdict decoded eq_refl).
  set (request := mk_Request key topic partition message).
  assert (Hnd : "req" ∉ PyDict.keys decoded ->
                NoDup (PyDict.keys (("req", Req request) :: decoded))).
  { intros Hreq. unfold PyDict.keys. cbn. by apply NoDup_cons. }
  assert (Hself : "self" ∈ PyDict.keys (("req", Req request) :: decoded)
                  <-> "self" ∈ PyDict.keys decoded).
  { unfold PyDict.keys. cbn. rewrite elem_of_cons.
    split; [by intros [?|?] | by right]. }
  split.
  - destruct (Event.call_kwargs [("req", Req request)] decoded)
      as [e|fields] eqn:Hcall; [done|]. cbn.
    apply call_kwargs_inv in Hcall as [-> Hdisj]. intros Hinit.
    assert (Hreq : "req" ∉ PyDict.keys decoded).
    { intros Hin. apply (Hdisj "req" Hin), list_elem_of_here. }
    change ([("req", Req request)] ++ decoded)
      with (("req", Req request) :: decoded) in Hinit.
    apply init_inr_inv in Hinit as (Hs & Hok & ->).
    rewrite (update_fresh [] _ (Hnd Hreq)).
    exists decoded. split_and!; [done..| |done|done].
    intros Hin. by apply Hs, Hself.
  - intros (decoded' & [= <-] & Hreq & Hs & Hkeys & ->).
    rewrite (call_kwargs_fresh [("req", Req request)] decoded (Hnd Hreq)).
    cbn [mbind result_bind app].
    rewrite init_exact; [|by rewrite Hself|done].
    by rewrite (update_fresh [] _ (Hnd Hreq)).
Qed.

(** X13. For a class whose schema has no field [req], a payload without
    the keys [req] and [self] that misses schema fields makes
    [from_message] fail exactly as direct construction from the decoded
    mapping does. *)
Theorem from_message_missing_like_constructor cls (key : V)
    (topic : string) (partition : Z) (message : Message) decoded :
  "req" ∉ _fieldset cls ->
  serialization_loads (serializer cls) (value message) = inr decoded ->
  NoDup (PyDict.keys decoded) ->
  "req" ∉ PyDict.keys decoded ->
  "self" ∉ PyDict.keys decoded ->
  _fieldset cls ∖ PyDict.frozenset decoded ≠ ∅ ->
  Event.from_message value serialization_loads cls key topic partition
    message = Event.__init__ cls decoded
  /\ Event.__init__ cls decoded
     = inl (TypeError (Event.missing_msg cls
                         (_fieldset cls ∖ PyDict.frozenset decoded))).
Proof.
  intros Hschema Hloads Hnd Hreq Hself Hmissing.
  unfold Event.from_message, Event.loads. rewrite Hloads. cbn.
  set (request := mk_Request key topic partition message).
  rewrite (call_kwargs_fresh [("req", Req request)] decoded)
    by (unfold PyDict.keys; cbn; by apply NoDup_cons).
  cbn.
  assert (Hsame : _fieldset cls
                    ∖ PyDict.frozenset (("req", Req request) :: decoded)
                  = _fieldset cls ∖ PyDict.frozenset decoded).
  { apply set_eq. intros x.
    rewrite !elem_of_difference, !elem_of_frozenset.
    unfold PyDict.keys. rewrite fmap_cons, not_elem_of_cons. cbn [fst].
    split; [by intros [? [_ ?]] | intros [Hx ?]].
    split_and!; [done| |done]. by intros ->. }
  assert (Hself' : "self" ∉ PyDict.keys (("req", Req request) :: decoded)).
  { unfold PyDict.keys. cbn. rewrite not_elem_of_cons. by split. }
  rewrite (init_missing cls decoded Hself Hmissing).
  split; [|done]. rewrite init_missing; [by rewrite Hsame|done|].
  by rewrite Hsame.
Qed.

(** X14. A payload that itself has a key [req] cannot be combined with
    the request context: the call of the constructor fails on the
    repeated keyword, before any validation. *)
Theorem from_message_payload_with_req cls (key : V) (topic : string)
    (partition : Z) (message : Message) decoded :
  serialization_loads (serializer cls) (value message) = inr decoded ->
  NoDup (PyDict.keys decoded) ->
  "req" ∈ PyDict.keys decoded ->
  Event.from_message value serialization_loads cls key topic partition
    message = inl (DuplicateKeyword "req").
Proof.
  intros Hloads Hnd Hreq. unfold Event.from_message, Event.loads.
  rewrite Hloads. cbn. rewrite (call_kwargs_duplicate _ decoded "req"); try done.
  - apply list_elem_of_here.
  - by intros k _ ?%list_elem_of_singleton.
Qed.

(** X15. For a class whose schema has no reserved name and with a codec
    that decodes a payload to the very mapping it was encoded from,
    serializing a record and deserializing the payload gives a record
    whose fields are in schema order, whatever the order in which the
    original fields were given. *)
Theorem roundtrip_in_schema_order (c : pyclass) ancestors ser fields :
  NoDup (PyDict.keys fields) ->
  Event.plain_schema (Event.__init_subclass__ c ancestors ser) ->
  PyDict.frozenset fields
    = _fieldset (Event.__init_subclass__ c ancestors ser) ->
  (forall m, NoDup (PyDict.keys m) -> PyDict.equal m fields ->
     exists p, serialization_dumps (inl ser) (inl m) = inr p
               /\ serialization_loads ser p = inr m) ->
  exists record p record',
    Event.__init__ (Event.__init_subclass__ c ancestors ser) fields
      = inr record
    /\ Event.dumps serialization_dumps call_value dict_of_call items_over
         record = inr p
    /\ Event.loads serialization_loads
         (Event.__init_subclass__ c ancestors ser) p [] = inr record'
    /\ PyDict.keys (__dict__ record')
       = PyDict.keys (_fields (Event.__init_subclass__ c ancestors ser)).
Proof.
  intros Hnd Hplain Hkeys Hcodec.
  destruct (serialization_of_constructed _ fields Hnd
              (NoDup_keys_fields c ancestors ser)
              (fieldset_fields c ancestors ser) Hplain Hkeys)
    as (Hself & items & _ & _ & Hikeys & Hind & Heq & Hdumps).
  rewrite serializer_init_subclass in Hdumps.
  destruct (Hcodec items Hind Heq) as (p & Hp & Hloads).
  assert (Hself' : "self" ∉ PyDict.keys items).
  { rewrite Hikeys. intros Hin%elem_of_frozenset.
    rewrite <- fieldset_fields, <- Hkeys in Hin.
    by apply elem_of_frozenset in Hin. }
  exists (mk_event (Event.__init_subclass__ c ancestors ser) fields), p,
    (mk_event (Event.__init_subclass__ c ancestors ser) items).
  split_and!; [| | |done].
  - rewrite init_exact by done. by rewrite (update_fresh [] fields Hnd).
  - by rewrite Hdumps.
  - unfold Event.loads. rewrite serializer_init_subclass, Hloads.
    cbn [mbind result_bind].
    rewrite (call_kwargs_fresh [] items Hind). cbn [mbind result_bind app].
    rewrite init_exact; [|done|].
    + by rewrite (update_fresh [] items Hind).
    + rewrite <- Hkeys. by apply equal_frozenset.
Qed.

(** X19. For a class whose schema has no reserved name, when the codec
    registered for the class encodes the field mapping of a record and
    decodes the payload back to an equal mapping, a record built from a
    mapping whose keys are the schema's fields is serialized, and
    deserializing the payload gives a record of the same type whose field
    mapping equals the original one. *)
Theorem roundtrip_of_plain_schema (c : pyclass) ancestors ser fields :
  NoDup (PyDict.keys fields) ->
  Event.plain_schema (Event.__init_subclass__ c ancestors ser) ->
  PyDict.frozenset fields
    = _fieldset (Event.__init_subclass__ c ancestors ser) ->
  (forall m, NoDup (PyDict.keys m) -> PyDict.equal m fields ->
     exists p m',
       serialization_dumps (inl ser) (inl m) = inr p
       /\ serialization_loads ser p = inr m'
       /\ NoDup (PyDict.keys m') /\ PyDict.equal m' m) ->
  exists record p record',
    Event.__init__ (Event.__init_subclass__ c ancestors ser) fields
      = inr record
    /\ Event.dumps serialization_dumps call_value dict_of_call items_over
         record = inr p
    /\ Event.loads serialization_loads
         (Event.__init_subclass__ c ancestors ser) p [] = inr record'
    /\ type_ record' = Event.__init_subclass__ c ancestors ser
    /\ PyDict.equal (__dict__ record') fields.
Proof.
  intros Hnd Hplain Hkeys Hcodec.
  destruct (serialization_of_constructed _ fields Hnd
              (NoDup_keys_fields c ancestors ser)
              (fieldset_fields c ancestors ser) Hplain Hkeys)
    as (Hself & items & _ & _ & Hikeys & Hind & Heq & Hdumps).
  rewrite serializer_init_subclass in Hdumps.
  destruct (Hcodec items Hind Heq) as (p & m' & Hp & Hloads & Hnd' & Heq').
  assert (Hkeys' : PyDict.frozenset m'
                   = _fieldset (Event.__init_subclass__ c ancestors ser)).
  { rewrite <- Hkeys. apply equal_frozenset. intros k.
    by rewrite (Heq' k), (Heq k). }
  assert (Hself' : "self" ∉ PyDict.keys m').
  { intros Hin%elem_of_frozenset. rewrite Hkeys', <- Hkeys in Hin.
    by apply elem_of_frozenset in Hin. }
  exists (mk_event (Event.__init_subclass__ c ancestors ser) fields), p,
    (mk_event (Event.__init_subclass__ c ancestors ser) m').
  split_and!; [| | |done|].
  - rewrite init_exact by done. by rewrite (update_fresh [] fields Hnd).
  - by rewrite Hdumps.
  - unfold Event.loads. rewrite serializer_init_subclass, Hloads.
    cbn [mbind result_bind].
    rewrite (call_kwargs_fresh [] m' Hnd'). cbn [mbind result_bind app].
    rewrite init_exact by done.
    by rewrite (update_fresh [] m' Hnd').
  - intros k. cbn [__dict__]. by rewrite (Heq' k), (Heq k).
Qed.

End serialization_more.

Section serialization_witnesses.
Import Example.

Lemma plain_schema_Order : Event.plain_schema Order.
Proof. compute_done. Qed.

Lemma example_codec_equal (m : dict obj) :
  NoDup (PyDict.keys m) -> PyDict.equal m usd_100_reordered ->
  exists p, serialization_dumps (inl (Some "json")) (inl m) = inr p
            /\ serialization_loads (Some "json") p = inr m.
Proof.
  intros Hnd Heq. apply example_codec_roundtrip.
  apply Forall_forall. intros [k o] Hin.
  pose proof (get_elem_of_NoDup m k o Hnd Hin) as Hget.
  rewrite (Heq k) in Hget. cbn in Hget.
  repeat case_decide; simplify_eq; by eexists.
Qed.

Lemma serialization_in_schema_order_witness :
  exists items,
    Event._asitems items_over (mk_event Order usd_100_reordered) = inr items
    /\ Event._asdict dict_of_call items_over
         (mk_event Order usd_100_reordered) = inr (inl items)
    /\ PyDict.keys items = PyDict.keys (_fields Order)
    /\ PyDict.equal items usd_100_reordered
    /\ dumps (mk_event Order usd_100_reordered)
       = serialization_dumps (inl (Some "json")) (inl items).
Proof.
  apply (serialization_in_schema_order serialization_dumps call_value
           dict_of_call items_over
           (ClsUser "Order" (Some [("amount", "int"); ("currency", "str")]) None)
           [ClsEvent; ClsObject] (Some "json") usd_100_reordered).
  - compute_done.
  - exact plain_schema_Order.
  - vm_compute; reflexivity.
Defined.

Lemma serialization_of_incomplete_instance_witness :
  Event._asitems items_over (mk_event Order amount_only)
    = inl (KeyError "currency")
  /\ dumps (mk_event Order amount_only) = inl (KeyError "currency").
Proof.
  apply (serialization_of_incomplete_instance serialization_dumps call_value
           dict_of_call items_over
           (mk_event Order amount_only) ["amount"] [] "currency").
  - compute_done.
  - compute_done.
  - compute_done.
  - compute_done.
  - reflexivity.
  - intros n ->%list_elem_of_singleton. compute_done.
  - compute_done.
Defined.

Lemma from_message_ok_iff_witness :
  from_message Tracked (AStr "k1") "orders" 0 amount_payload
  = inr (mk_event Tracked
           [("req", Req (mk_Request (AStr "k1") "orders" 0 amount_payload));
            ("amount", Val (AInt 100))]).
Proof.
  apply (from_message_ok_iff value serialization_loads Tracked (AStr "k1")
           "orders" 0 amount_payload).
  - intros decoded [= <-]. compute_done.
  - exists [("amount", Val (AInt 100))].
    split_and!;
      [reflexivity | compute_done | compute_done | compute_done | reflexivity].
Defined.

Lemma from_message_missing_like_constructor_witness :
  from_message Order (AStr "k1") "orders" 0 amount_payload
    = construct Order amount_only
  /\ construct Order amount_only
     = inl (TypeError (Event.missing_msg Order
                         (_fieldset Order ∖ PyDict.frozenset amount_only))).
Proof.
  apply (from_message_missing_like_constructor value serialization_loads
           Order (AStr "k1") "orders" 0 amount_payload amount_only).
  - compute_done.
  - reflexivity.
  - compute_done.
  - compute_done.
  - compute_done.
  - compute_done.
Defined.

Lemma from_message_payload_with_req_witness :
  from_message Tracked (AStr "k1") "orders" 0 req_payload
  = inl (DuplicateKeyword "req").
Proof.
  apply (from_message_payload_with_req value serialization_loads Tracked
           (AStr "k1") "orders" 0 req_payload
           [("amount", Val (AInt 100)); ("req", Val (AInt 7))]).
  - reflexivity.
  - compute_done.
  - compute_done.
Defined.

Lemma roundtrip_in_schema_order_witness :
  exists record p record',
    construct Order usd_100_reordered = inr record
    /\ dumps record = inr p
    /\ loads Order p [] = inr record'
    /\ PyDict.keys (__dict__ record') = PyDict.keys (_fields Order).
Proof.
  apply (roundtrip_in_schema_order serialization_loads serialization_dumps
           call_value dict_of_call items_over
           (ClsUser "Order" (Some [("amount", "int"); ("currency", "str")]) None)
           [ClsEvent; ClsObject] (Some "json") usd_100_reordered).
  - compute_done.
  - exact plain_schema_Order.
  - compute_done.
  - exact example_codec_equal.
Defined.

Lemma roundtrip_of_plain_schema_witness :
  exists record p record',
    construct Order usd_100_reordered = inr record
    /\ dumps record = inr p
    /\ loads Order p [] = inr record'
    /\ type_ record' = Order
    /\ PyDict.equal (__dict__ record') usd_100_reordered.
Proof.
  apply (roundtrip_of_plain_schema serialization_loads serialization_dumps
           call_value dict_of_call items_over
           (ClsUser "Order" (Some [("amount", "int"); ("currency", "str")]) None)
           [ClsEvent; ClsObject] (Some "json") usd_100_reordered).
  - compute_done.
  - exact plain_schema_Order.
  - compute_done.
  - intros m Hnd Heq. destruct (example_codec_equal m Hnd Heq) as (p & Hp & Hl).
    exists p, m. by split_and!.
Defined.

End serialization_witnesses.

(** ** Bound events *)

Section bound_more.
Context {O : Type}.
Implicit Types (event : event_type) (obj : O) (self : dict (BoundEvent.attr O)).

Lemma get_Some_elem_of {A} (k : string) (v : A) (d : dict A) :
  PyDict.get k d = Some v -> (k, v) ∈ d.
Proof.
  induction d as [|[k' v'] d IH]; cbn; [done|].
  case_decide as Hk.
  - intros [= ->]. subst k'. apply list_elem_of_here.
  - intros Hget. by apply list_elem_of_further, IH.
Qed.

Lemma Forall_set {A} (P : string * A -> Prop) (k : string) (v : A)
    (d : dict A) :
  P (k, v) -> Forall P d -> Forall P (PyDict.set k v d).
Proof.
  intros Hkv. induction 1 as [|[k' v'] d Hk' Hd IH]; cbn.
  - by apply Forall_singleton.
  - case_decide as Hk; [subst k'|]; by apply Forall_cons.
Qed.

Lemma Forall_update {A} (P : string * A -> Prop) (d other : dict A) :
  Forall P d -> Forall P other -> Forall P (PyDict.update d other).
Proof.
  unfold PyDict.update. intros Hd Hother. revert d Hd.
  induction Hother as [|[k v] other Hkv Hother IH]; intros d Hd; [done|].
  cbn [foldl]. apply IH. by apply Forall_set.
Qed.

Lemma descriptor_items_own (names : list string) :
  Forall (BoundEvent.is_own_descriptor (O := O))
    (PyDict.of_items
       (map (fun field =>
               (field, BoundEvent.AttrField
                         (BoundEvent._make_field_descriptor field)))
            names)).
Proof.
  apply Forall_update; [done|]. by apply Forall_forall; intros ? (f & -> & _)%list_elem_of_fmap.
Qed.

Lemma keys_map_pair {A} (g : string -> A) (names : list string) :
  PyDict.keys (map (fun field => (field, g field)) names) = names.
Proof.
  unfold PyDict.keys. induction names as [|f names IH]; [done|].
  cbn. by f_equal.
Qed.

Lemma descriptor_items_keys (names : list string) (f : string) :
  f ∈ PyDict.keys
        (PyDict.of_items
           (map (fun field =>
                   (field, BoundEvent.AttrField (O := O)
                             (BoundEvent._make_field_descriptor field)))
                names))
  <-> f ∈ names.
Proof.
  unfold PyDict.of_items. rewrite elem_of_keys_update, keys_map_pair.
  split; [intros [Hnil|?]; [by apply elem_of_nil in Hnil | done] | by right].
Qed.

Lemma descriptors_of_items (names : list string) :
  BoundEvent.descriptors
    (map (fun field =>
            (field, BoundEvent.AttrField (O := O)
                      (BoundEvent._make_field_descriptor field)))
         names)
  = map (fun field => (field, FieldDescriptor.__init__ field)) names.
Proof.
  unfold BoundEvent.descriptors.
  induction names as [|f names IH]; [done|]. cbn. by f_equal.
Qed.

(** X16. Every name that the event class annotates is bound to the
    descriptor of that name, also the names [event] and [obj]: only when
    the class annotates neither does the bound event keep its references
    to the event class and to the object. *)
Theorem bound_event_binds_every_annotation event obj (ann : dict pytype) :
  __annotations__ (cls_object event) = Some ann ->
  exists self,
    BoundEvent.__init__ event obj = inr self
    /\ (forall f, f ∈ PyDict.keys ann ->
          PyDict.get f self
          = Some (BoundEvent.AttrField (FieldDescriptor.__init__ f)))
    /\ ("event" ∉ PyDict.keys ann ->
        PyDict.get "event" self = Some (BoundEvent.AttrEvent event))
    /\ ("obj" ∉ PyDict.keys ann ->
        PyDict.get "obj" self = Some (BoundEvent.AttrObj obj)).
Proof.
  intros Hann. unfold BoundEvent.__init__. rewrite Hann.
  eexists. split; [done|].
  set (items := PyDict.of_items _).
  assert (Hnone : forall f, f ∉ PyDict.keys ann ->
                            PyDict.get f (reverse items) = None).
  { intros f Hf. apply get_None. unfold PyDict.keys.
    rewrite fmap_reverse, elem_of_reverse. intros Hin. apply Hf.
    by apply (descriptor_items_keys (PyDict.keys ann) f). }
  split_and!.
  - intros f Hf. rewrite get_update.
    destruct (PyDict.get f (reverse items)) as [v|] eqn:Hv.
    + apply get_Some_elem_of in Hv. rewrite elem_of_reverse in Hv.
      pose proof (descriptor_items_own (PyDict.keys ann)) as Hown.
      rewrite Forall_forall in Hown. specialize (Hown _ Hv).
      unfold BoundEvent.is_own_descriptor in Hown. cbn in Hown.
      by rewrite Hown.
    + apply get_None in Hv. destruct Hv. unfold PyDict.keys.
      rewrite fmap_reverse, elem_of_reverse.
      by apply (descriptor_items_keys (PyDict.keys ann) f).
  - intros Hev. by rewrite get_update, (Hnone _ Hev).
  - intros Hobj. by rewrite get_update, (Hnone _ Hobj).
Qed.

(** X17. For a class declared directly under [Event] whose annotations
    use neither [event] nor [obj] as a name, binding makes exactly one
    descriptor per schema field, in schema order, after the two
    attributes [event] and [obj]. *)
Theorem bound_event_of_direct_subclass (name : string) (ann : dict pytype)
    (s ser : option string) (above : list pyclass) obj :
  ClsEvent ∉ above ->
  NoDup (PyDict.keys ann) ->
  "event" ∉ PyDict.keys ann ->
  "obj" ∉ PyDict.keys ann ->
  exists self,
    BoundEvent.__init__
      (Event.__init_subclass__ (ClsUser name (Some ann) s)
         (ClsEvent :: above) ser) obj = inr self
    /\ PyDict.keys self
       = "event" :: "obj"
           :: PyDict.keys
                (_fields (Event.__init_subclass__ (ClsUser name (Some ann) s)
                            (ClsEvent :: above) ser))
    /\ BoundEvent.descriptors self
       = map (fun field => (field, FieldDescriptor.__init__ field))
           (PyDict.keys
              (_fields (Event.__init_subclass__ (ClsUser name (Some ann) s)
                          (ClsEvent :: above) ser))).
Proof.
  intros Habove Hnd Hev Hobj.
  set (event := Event.__init_subclass__ (ClsUser name (Some ann) s)
                  (ClsEvent :: above) ser).
  assert (Hfields : _fields event = ann).
  { unfold event. cbn [Event.__init_subclass__ _fields].
    change (ClsUser name (Some ann) s :: ClsEvent :: above)
      with ([ClsUser name (Some ann) s] ++ ClsEvent :: above).
    rewrite (mro_fields_below _ above Habove).
    cbn. by apply (update_fresh []). }
  assert (Hann : __annotations__ (cls_object event) = Some ann) by done.
  clearbody event. rewrite Hfields. unfold BoundEvent.__init__. rewrite Hann.
  set (items := map _ (PyDict.keys ann)).
  assert (Hkeys : PyDict.keys items = PyDict.keys ann).
  { apply keys_map_pair. }
  assert (Hof : PyDict.of_items items = items).
  { apply of_items_NoDup. by rewrite Hkeys. }
  eexists. split; [done|]. rewrite Hof.
  rewrite (update_fresh
             [("event", BoundEvent.AttrEvent event);
              ("obj", BoundEvent.AttrObj obj)] items).
  - split.
    + unfold PyDict.keys in *. cbn. by rewrite Hkeys.
    + cbn. apply descriptors_of_items.
  - unfold PyDict.keys in *. cbn. rewrite Hkeys.
    apply NoDup_cons. split; [|by apply NoDup_cons].
    apply not_elem_of_cons. by split.
Qed.

End bound_more.

Section bound_witnesses.
Import Example.

Lemma bound_event_binds_every_annotation_witness :
  exists self,
    BoundEvent.__init__ Click () = inr self
    /\ PyDict.get "event" self
       = Some (BoundEvent.AttrField (FieldDescriptor.__init__ "event"))
    /\ PyDict.get "obj" self = Some (BoundEvent.AttrObj ()).
Proof.
  destruct (bound_event_binds_every_annotation Click ()
              [("event", "str"); ("x", "int")] eq_refl)
    as (self & Hself & Hfields & _ & Hobj).
  exists self. split_and!; [done| |].
  - apply Hfields. compute_done.
  - apply Hobj. compute_done.
Defined.

Lemma bound_event_of_direct_subclass_witness :
  exists self,
    BoundEvent.__init__ Order () = inr self
    /\ PyDict.keys self = "event" :: "obj" :: PyDict.keys (_fields Order)
    /\ BoundEvent.descriptors self
       = map (fun field => (field, FieldDescriptor.__init__ field))
           (PyDict.keys (_fields Order)).
Proof.
  apply (bound_event_of_direct_subclass "Order"
           [("amount", "int"); ("currency", "str")] None (Some "json")
           [ClsObject] ()).
  - apply not_elem_of_cons; split; [discriminate | apply not_elem_of_nil].
  - compute_done.
  - compute_done.
  - compute_done.
Defined.

End bound_witnesses.

(** ** Representation of mappings *)

Lemma string_app_assoc (s1 s2 s3 : string) :
  (s1 +:+ s2) +:+ s3 = s1 +:+ (s2 +:+ s3).
Proof.
  induction s1 as [|a s1 IH]; [done|].
  change (String a ((s1 +:+ s2) +:+ s3) = String a (s1 +:+ (s2 +:+ s3))).
  by rewrite IH.
Qed.

Lemma join_app (sep : string) (l1 l2 : list string) :
  l1 <> [] -> l2 <> [] ->
  join sep (l1 ++ l2) = join sep l1 +:+ sep +:+ join sep l2.
Proof.
  unfold join. intros Hl1 Hl2. induction l1 as [|x l1 IH]; [done|].
  destruct l1 as [|y l1].
  - destruct l2 as [|z l2]; [done|]. reflexivity.
  - change (x +:+ sep +:+ String.concat sep ((y :: l1) ++ l2)
            = (x +:+ sep +:+ String.concat sep (y :: l1))
                +:+ sep +:+ String.concat sep l2).
    rewrite IH by done. by rewrite !string_app_assoc.
Qed.

(** X18. [_kvrepr] puts the separator between the pairs and nowhere else:
    the text for two non-empty mappings one after the other is the text
    of the first, the separator, and the text of the second. *)
Theorem kvrepr_app {A} (repr : A -> string) (d1 d2 : dict A) (sep : string) :
  d1 <> [] -> d2 <> [] ->
  _kvrepr repr (d1 ++ d2) sep
  = _kvrepr repr d1 sep +:+ sep +:+ _kvrepr repr d2 sep.
Proof.
  intros Hd1 Hd2. unfold _kvrepr. rewrite map_app. apply join_app.
  - by destruct d1.
  - by destruct d2.
Qed.

Lemma kvrepr_app_witness :
  _kvrepr Example.repr
    ([("amount", Val (Example.AInt 100))]
       ++ [("currency", Val (Example.AStr "USD"))]) ", "
  = _kvrepr Example.repr [("amount", Val (Example.AInt 100))] ", "
      +:+ ", "
      +:+ _kvrepr Example.repr [("currency", Val (Example.AStr "USD"))] ", ".
Proof. apply kvrepr_app; discriminate. Defined.
